(** * pysot: [ModelBuilder] (pysot/models/model_builder.py)

    A shallow embedding of the tracker's model assembly class.  The Python
    object is a finite map from attribute names to values, every method is a
    computation in a state-and-exception monad over that map, and the
    networks the class wires together (backbone, neck, heads, losses, the
    tensor runtime) are the fields of a type class, so every result holds
    for all of them.

    A network is a function of its arguments: calling it changes no
    attribute of the model.  Paths are POSIX paths; whether the disk takes
    a write is the framework's answer. *)

From stdpp Require Import gmap strings list fin_maps.
From Stdlib Require Import ZArith.

Local Open Scope Z_scope.
Local Open Scope string_scope.

(** ** Exceptions *)

(** The Python exceptions the class can raise itself, and [RuntimeError]
    for whatever an external network or the tensor runtime raises. *)
Inductive exn : Type :=
| AttributeError (attr : string)
| UnboundLocalError (var : string)
| KeyError (key : string)
| TypeError
| IndexError
| ValueError
| RuntimeError (code : Z).

#[global] Instance exn_eq_dec : EqDecision exn.
Proof. solve_decision. Defined.

(** ** Values *)

(** The carrier types the deep-learning framework provides. *)
Class TorchTypes : Type := {
  tensor : Type;   (* torch.Tensor *)
  module : Type;   (* torch.nn.Module instances built by the factories *)
  script : Type;   (* torch.jit.ScriptModule *)
  number : Type;   (* Python numbers of the configuration (loss weights) *)
  kwargs : Type;   (* keyword dictionaries of the configuration *)
}.

#[warnings="-register-all"]
Inductive pyval `{TorchTypes} : Type :=
| VNone
| VNum (r : number)
| VTensor (t : tensor)
| VList (l : list pyval)
| VTuple (l : list pyval)
| VModule (m : module).

(** What the class imports: network factories, the networks' call
    operator, the loss functions and the tensor primitives it uses. *)
Class TorchOps `{TorchTypes} : Type := {
  get_backbone : string → kwargs → exn + module;
  get_neck : string → kwargs → exn + module;
  get_rpn_head : string → kwargs → exn + module;
  get_mask_head : string → kwargs → exn + module;
  get_refine_head : string → exn + module;
  module_call : module → list pyval → exn + pyval;
  select_cross_entropy_loss : pyval → pyval → exn + tensor;
  weight_l1_loss : pyval → pyval → pyval → exn + tensor;
  tensor_last : tensor → exn + pyval;             (* t[-1] *)
  tensor_init : tensor → exn + pyval;             (* t[:-1] *)
  tensor_iter : tensor → exn + list pyval;        (* iter(t) *)
  tensor_cuda : tensor → exn + tensor;            (* t.cuda() *)
  module_cuda : module → exn + module;            (* m.cuda() *)
  module_truthy : module → bool;                  (* bool(m): __len__ if any *)
  tensor_size : tensor → list Z;                  (* t.size() *)
  tensor_view : tensor → list Z → exn + tensor;   (* t.view(...) *)
  tensor_permute : tensor → list Z → exn + tensor;
  tensor_contiguous : tensor → tensor;
  F_log_softmax : tensor → Z → exn + tensor;
  tensor_scale : number → tensor → tensor;        (* number * tensor *)
  tensor_mul : tensor → tensor → exn + tensor;
  tensor_add : tensor → tensor → exn + tensor;
  number_mul : number → number → number;
  number_add : number → number → number;
  jit_script : module → exn + script;             (* torch.jit.script *)
  script_save : script → string → exn + unit;     (* s.save(path) on the disk *)
}.

(** The part of [pysot.core.config.cfg] the class reads. *)
Record config `{TorchTypes} : Type := {
  BACKBONE_TYPE : string;
  BACKBONE_KWARGS : kwargs;
  ADJUST_ADJUST : bool;
  ADJUST_TYPE : string;
  ADJUST_KWARGS : kwargs;
  RPN_TYPE : string;
  RPN_KWARGS : kwargs;
  MASK_MASK : bool;
  MASK_TYPE : string;
  MASK_KWARGS : kwargs;
  REFINE_REFINE : bool;
  REFINE_TYPE : string;
  TRAIN_CLS_WEIGHT : number;
  TRAIN_LOC_WEIGHT : number;
  TRAIN_MASK_WEIGHT : number;
}.

(** ** The world a method runs in *)

(** [attrs] is the model object (submodules and plain attributes alike),
    [files] the serialized graphs on disk, [stdout] what was printed. *)
Record world `{TorchTypes} : Type := World {
  attrs : gmap string pyval;
  files : gmap string script;
  stdout : list string;
}.

(** ** The monad *)

(** A computation returns a value or raises, and in both cases leaves a
    world behind: attribute writes made before an exception stay. *)
Definition M `{TorchTypes} (A : Type) : Type := world → (exn + A) * world.

#[global] Instance M_ret `{TorchTypes} : MRet M :=
  λ A (a : A) (w : world), (inr a, w).

#[global] Instance M_bind `{TorchTypes} : MBind M :=
  λ A B (f : A → M B) (m : M A) (w : world),
    match m w with
    | (inr a, w') => f a w'
    | (inl e, w') => (inl e, w')
    end.

Definition raise `{TorchTypes} {A : Type} (e : exn) : M A :=
  λ w, (inl e, w).

Definition lift `{TorchTypes} {A : Type} (r : exn + A) : M A :=
  λ w, (r, w).

Definition result `{TorchTypes} {A : Type} (r : (exn + A) * world) : exn + A :=
  fst r.

Definition final `{TorchTypes} {A : Type} (r : (exn + A) * world) : world :=
  snd r.

Section runtime.
Context `{TorchOps}.

(** *** Attributes and locals *)

(** [self.name]; [nn.Module.__getattr__] raises when the name is absent. *)
Definition getattr (name : string) : M pyval :=
  λ w, match attrs w !! name with
       | Some v => (inr v, w)
       | None => (inl (AttributeError name), w)
       end.

(** [self.name = v] *)
Definition setattr (name : string) (v : pyval) : M unit :=
  λ w, (inr tt, World _ (<[name := v]> (attrs w)) (files w) (stdout w)).

(** Reading a local variable that an untaken branch would have bound. *)
Definition local (name : string) (v : option pyval) : M pyval :=
  match v with
  | Some a => mret a
  | None => raise (UnboundLocalError name)
  end.

(** *** Operators *)

(** A tensor primitive's outcome as a Python value. *)
Definition boxed (r : exn + tensor) : exn + pyval :=
  match r with
  | inr t => inr (VTensor t)
  | inl e => inl e
  end.

(** [f(args)] *)
Definition py_call (f : pyval) (args : list pyval) : exn + pyval :=
  match f with
  | VModule m => module_call m args
  | _ => inl TypeError
  end.

Definition call (f : pyval) (args : list pyval) : M pyval :=
  lift (py_call f args).

(** [v[-1]] *)
Definition py_last (v : pyval) : exn + pyval :=
  match v with
  | VList l | VTuple l =>
      match last l with
      | Some a => inr a
      | None => inl IndexError
      end
  | VTensor t => tensor_last t
  | _ => inl TypeError
  end.

(** [v[:-1]] *)
Definition py_init (v : pyval) : exn + pyval :=
  match v with
  | VList l => inr (VList (removelast l))
  | VTuple l => inr (VTuple (removelast l))
  | VTensor t => tensor_init t
  | _ => inl TypeError
  end.

(** [a, b = v] *)
Definition py_items (v : pyval) : exn + list pyval :=
  match v with
  | VList l | VTuple l => inr l
  | VTensor t => tensor_iter t
  | _ => inl TypeError
  end.

Definition unpack2 (v : pyval) : exn + pyval * pyval :=
  match py_items v with
  | inr [a; b] => inr (a, b)
  | inr _ => inl ValueError
  | inl e => inl e
  end.

(** [if v:] for the values the class tests, which are submodules: a
    module is true unless it has a [__len__] that is 0 (an empty
    container module), and the other values are true unless empty. *)
Definition py_truthy (v : pyval) : bool :=
  match v with
  | VNone => false
  | VList [] | VTuple [] => false
  | VModule m => module_truthy m
  | _ => true
  end.

(** [a * b] and [a + b] on numbers and tensors; [None] supports neither. *)
Definition py_mul (a b : pyval) : exn + pyval :=
  match a, b with
  | VNum p, VNum q => inr (VNum (number_mul p q))
  | VNum p, VTensor t | VTensor t, VNum p => inr (VTensor (tensor_scale p t))
  | VTensor t, VTensor u => boxed (tensor_mul t u)
  | _, _ => inl TypeError
  end.

Definition py_add (a b : pyval) : exn + pyval :=
  match a, b with
  | VNum p, VNum q => inr (VNum (number_add p q))
  | VTensor t, VTensor u => boxed (tensor_add t u)
  | _, _ => inl TypeError
  end.

(** *** Tensor methods *)

(** [v.cuda()]: tensors and modules have the method. *)
Definition py_cuda (v : pyval) : exn + pyval :=
  match v with
  | VTensor t => boxed (tensor_cuda t)
  | VModule m =>
      match module_cuda m with
      | inr m' => inr (VModule m')
      | inl e => inl e
      end
  | _ => inl (AttributeError "cuda")
  end.

Definition py_size (v : pyval) : exn + list Z :=
  match v with
  | VTensor t => inr (tensor_size t)
  | _ => inl (AttributeError "size")
  end.

Definition unpack4 (l : list Z) : exn + Z * Z * Z * Z :=
  match l with
  | [b; a2; h; w] => inr (b, a2, h, w)
  | _ => inl ValueError
  end.

Definition py_view (v : pyval) (shape : list Z) : exn + pyval :=
  match v with
  | VTensor t => boxed (tensor_view t shape)
  | _ => inl (AttributeError "view")
  end.

Definition py_permute (v : pyval) (dims : list Z) : exn + pyval :=
  match v with
  | VTensor t => boxed (tensor_permute t dims)
  | _ => inl (AttributeError "permute")
  end.

Definition py_contiguous (v : pyval) : exn + pyval :=
  match v with
  | VTensor t => inr (VTensor (tensor_contiguous t))
  | _ => inl (AttributeError "contiguous")
  end.

Definition py_log_softmax (v : pyval) (dim : Z) : exn + pyval :=
  match v with
  | VTensor t => boxed (F_log_softmax t dim)
  | _ => inl TypeError
  end.

(** [d[key]] on a dictionary *)
Definition py_getitem (d : gmap string pyval) (key : string) : exn + pyval :=
  match d !! key with
  | Some v => inr v
  | None => inl (KeyError key)
  end.

(** *** Files and output *)

(** [os.path.join(a, b)] (posixpath) *)
Definition os_path_join (a b : string) : string :=
  if String.prefix "/" b then b
  else if decide (a = "") then b
  else if String.prefix "/" (String.rev a) then a ++ b
  else a ++ "/" ++ b.

(** [s.save(path)]: the file is there if the write went through, and
    the call raises (a missing directory, say) if it did not. *)
Definition save (s : script) (path : string) : M unit :=
  λ w, match script_save s path with
       | inr _ => (inr tt, World _ (attrs w) (<[path := s]> (files w)) (stdout w))
       | inl e => (inl e, w)
       end.

Definition print (line : string) : M unit :=
  λ w, (inr tt, World _ (attrs w) (files w) (stdout w ++ [line])).

Definition torch_jit_script (v : pyval) : exn + script :=
  match v with
  | VModule m => jit_script m
  | _ => inl TypeError
  end.

(** *** Methods and decorators *)

(** What a [def] leaves in the class: the function, or, under
    [@torch.jit.script_method], the [ScriptMethodStub] the decorator
    returns, a named tuple that records the function and is not callable.
    [nn.Module] does not compile stubs (only [ScriptModule] does), so the
    stub is what [self.name] finds. *)
Inductive class_attr (A B : Type) : Type :=
| Function (f : A → M B)
| ScriptMethodStub (original_method : A → M B).

Definition script_method {A B : Type} (fn : A → M B) : class_attr A B :=
  ScriptMethodStub A B fn.

(** [self.name(arg)] *)
Definition invoke {A B : Type} (a : class_attr A B) (arg : A) : M B :=
  match a with
  | Function _ _ f => f arg
  | ScriptMethodStub _ _ _ => raise TypeError
  end.

End runtime.

(** ** The class *)

Section ModelBuilder.
Context `{TorchOps} (cfg : config).

(** [ModelBuilder.__init__], run on the empty object [nn.Module.__init__]
    leaves behind. *)
Definition __init__ : M unit :=
  backbone ← lift (get_backbone (BACKBONE_TYPE cfg) (BACKBONE_KWARGS cfg));
  setattr "backbone" (VModule backbone);;
  (if ADJUST_ADJUST cfg then
     neck ← lift (get_neck (ADJUST_TYPE cfg) (ADJUST_KWARGS cfg));
     setattr "neck" (VModule neck)
   else mret tt);;
  rpn_head ← lift (get_rpn_head (RPN_TYPE cfg) (RPN_KWARGS cfg));
  setattr "rpn_head" (VModule rpn_head);;
  if MASK_MASK cfg then
    mask_head ← lift (get_mask_head (MASK_TYPE cfg) (MASK_KWARGS cfg));
    setattr "mask_head" (VModule mask_head);;
    if REFINE_REFINE cfg then
      refine_head ← lift (get_refine_head (REFINE_TYPE cfg));
      setattr "refine_head" (VModule refine_head)
    else mret tt
  else mret tt.

Definition template (z : pyval) : M unit :=
  backbone ← getattr "backbone";
  zf ← call backbone [z];
  zf ← (if MASK_MASK cfg then lift (py_last zf) else mret zf);
  zf ← (if ADJUST_ADJUST cfg then
          neck ← getattr "neck";
          call neck [zf]
        else mret zf);
  setattr "zf" zf.

(** The locals [xf], [xf_n] and [mask] are bound in one branch only, so
    they are optional here and read through [local].  Arguments are
    evaluated left to right after the callee: [self.rpn_head(self.zf, xf_n)]
    reads [self.rpn_head], then [self.zf], then [xf_n].  This is the
    function written under the decorator, which the stub keeps as
    [original_method]. *)
Definition track_body (x : pyval) : M (gmap string pyval) :=
  backbone ← getattr "backbone";
  xf_local ← call backbone [x];
  xf ← (if MASK_MASK cfg then
          xf_init ← lift (py_init xf_local);
          setattr "xf" xf_init;;
          xf_last ← lift (py_last xf_local);
          mret (Some xf_last)
        else mret None);
  xf_n ← (if ADJUST_ADJUST cfg then
            neck ← getattr "neck";
            xf ← local "xf" xf;
            xf_n ← call neck [xf];
            mret (Some xf_n)
          else mret None);
  rpn_head ← getattr "rpn_head";
  zf ← getattr "zf";
  xf_n' ← local "xf_n" xf_n;
  out ← call rpn_head [zf; xf_n'];
  '(cls, loc) ← lift (unpack2 out);
  mask ← (if MASK_MASK cfg then
            mask_head ← getattr "mask_head";
            zf ← getattr "zf";
            xf_n' ← local "xf_n" xf_n;
            out ← call mask_head [zf; xf_n'];
            '(mask, mask_corr_feature) ← lift (unpack2 out);
            setattr "mask_corr_feature" mask_corr_feature;;
            mret (Some mask)
          else mret None);
  mask' ← (if MASK_MASK cfg then local "mask" mask else mret VNone);
  mret (<["cls" := cls]> (<["loc" := loc]> (<["mask" := mask']> ∅))).

(** [track] as the class has it: the decorated [def]. *)
Definition track_attr : class_attr pyval (gmap string pyval) :=
  script_method track_body.

(** [self.track(x)] *)
Definition track (x : pyval) : M (gmap string pyval) :=
  invoke track_attr x.

Definition mask_refine (pos : pyval) : M pyval :=
  refine_head ← getattr "refine_head";
  xf ← getattr "xf";
  mask_corr_feature ← getattr "mask_corr_feature";
  call refine_head [xf; mask_corr_feature; pos].

Definition log_softmax (cls : pyval) : M pyval :=
  size ← lift (py_size cls);
  '(b, a2, h, w) ← lift (unpack4 size);
  cls ← lift (py_view cls [b; 2; a2 `div` 2; h; w]);
  cls ← lift (py_permute cls [0; 2; 3; 4; 1]);
  cls ← lift (py_contiguous cls);
  cls ← lift (py_log_softmax cls 4);
  mret cls.

(** [data[key].cuda()] *)
Definition fetch (data : gmap string pyval) (key : string) : exn + pyval :=
  match py_getitem data key with
  | inr v => py_cuda v
  | inl e => inl e
  end.

Definition forward (data : gmap string pyval) : M (gmap string pyval) :=
  template ← lift (fetch data "template");
  search ← lift (fetch data "search");
  label_cls ← lift (fetch data "label_cls");
  label_loc ← lift (fetch data "label_loc");
  label_loc_weight ← lift (fetch data "label_loc_weight");
  backbone ← getattr "backbone";
  zf ← call backbone [template];
  backbone ← getattr "backbone";
  xf ← call backbone [search];
  '(zf, xf) ← (if MASK_MASK cfg then
                 zf ← lift (py_last zf);
                 xf_init ← lift (py_init xf);
                 setattr "xf_refine" xf_init;;
                 xf ← lift (py_last xf);
                 mret (zf, xf)
               else mret (zf, xf));
  '(zf, xf) ← (if ADJUST_ADJUST cfg then
                 neck ← getattr "neck";
                 zf ← call neck [zf];
                 neck ← getattr "neck";
                 xf ← call neck [xf];
                 mret (zf, xf)
               else mret (zf, xf));
  rpn_head ← getattr "rpn_head";
  out ← call rpn_head [zf; xf];
  '(cls, loc) ← lift (unpack2 out);
  cls ← log_softmax cls;
  cls_loss ← lift (boxed (select_cross_entropy_loss cls label_cls));
  loc_loss ← lift (boxed (weight_l1_loss loc label_loc label_loc_weight));
  let outputs : gmap string pyval := ∅ in
  weighted_cls ← lift (py_mul (VNum (TRAIN_CLS_WEIGHT cfg)) cls_loss);
  weighted_loc ← lift (py_mul (VNum (TRAIN_LOC_WEIGHT cfg)) loc_loss);
  total_loss ← lift (py_add weighted_cls weighted_loc);
  let outputs := <["total_loss" := total_loss]> outputs in
  let outputs := <["cls_loss" := cls_loss]> outputs in
  let outputs := <["loc_loss" := loc_loss]> outputs in
  if MASK_MASK cfg then
    mask_head ← getattr "mask_head";
    out ← call mask_head [zf; xf];
    '(mask, mask_corr_feature) ← lift (unpack2 out);
    setattr "mask_corr_feature" mask_corr_feature;;
    let mask_loss := VNone in
    total_loss ← lift (py_getitem outputs "total_loss");
    weighted_mask ← lift (py_mul (VNum (TRAIN_MASK_WEIGHT cfg)) mask_loss);
    total_loss ← lift (py_add total_loss weighted_mask);
    let outputs := <["total_loss" := total_loss]> outputs in
    let outputs := <["mask_loss" := mask_loss]> outputs in
    mret outputs
  else mret outputs.

(** The three lines [save_script] repeats for each submodule: script it,
    save the graph under [save_path], report the path. *)
Definition export (v : pyval) (save_path file label : string) : M unit :=
  scripted ← lift (torch_jit_script v);
  save scripted (os_path_join save_path file);;
  print ("Save " ++ label ++ " as " ++ os_path_join save_path file).

Definition save_script (save_path : string) : M unit :=
  backbone ← getattr "backbone";
  export backbone save_path "back_bone.pt" "backbone";;
  neck ← getattr "neck";
  (if py_truthy neck then
     neck ← getattr "neck";
     export neck save_path "neck.pt" "neckscript"
   else mret tt);;
  rpn_head ← getattr "rpn_head";
  (if py_truthy rpn_head then
     rpn_head ← getattr "rpn_head";
     export rpn_head save_path "rpn_head.pt" "rpn_head_script"
   else mret tt);;
  mask_head ← getattr "mask_head";
  if py_truthy mask_head then
    mask_head ← getattr "mask_head";
    export mask_head save_path "mask_head.pt" "mask_head_script";;
    refine_head ← getattr "refine_head";
    if py_truthy refine_head then
      refine_head ← getattr "refine_head";
      export refine_head save_path "refine_head.pt" "refine_head_script"
    else mret tt
  else mret tt.

End ModelBuilder.

(** ** Sessions *)

(** One call on the model, as a tracking or training script issues it. *)
Inductive op `{TorchTypes} : Type :=
| Template (z : pyval)
| Track (x : pyval)
| MaskRefine (pos : pyval)
| LogSoftmax (cls : pyval)
| Forward (data : gmap string pyval)
| SaveScript (save_path : string).

Section sessions.
Context `{TorchOps} (cfg : config).

(** The world after one call, whether it returned or raised. *)
Definition step (w : world) (o : op) : world :=
  match o with
  | Template z => final (template cfg z w)
  | Track x => final (track cfg x w)
  | MaskRefine pos => final (mask_refine pos w)
  | LogSoftmax cls => final (log_softmax cls w)
  | Forward data => final (forward cfg data w)
  | SaveScript save_path => final (save_script save_path w)
  end.

Definition run (ops : list op) (w : world) : world :=
  foldl step w ops.

(** The embedding [template] computes from [z]: the backbone's output,
    its last element under the mask flag, the neck's output under the
    adjust flag. *)
Definition embedding (backbone neck : pyval) (z : pyval) : exn + pyval :=
  match py_call backbone [z] with
  | inr zf =>
      match (if MASK_MASK cfg then py_last zf else inr zf) with
      | inr zf => if ADJUST_ADJUST cfg then py_call neck [zf] else inr zf
      | inl e => inl e
      end
  | inl e => inl e
  end.

(** The embedding a session leaves cached: that of the last [template]
    call that returned, or what was there before. *)
Definition cached (backbone neck : pyval) (zf : option pyval) (ops : list op) :
    option pyval :=
  foldl (λ zf o,
           match o with
           | Template z =>
               match embedding backbone neck z with
               | inr v => Some v
               | inl _ => zf
               end
           | _ => zf
           end) zf ops.

(** A run of the function under [track]'s decorator that returns: both flags are
    set, every step succeeded, and the run cached the search features
    [xf] and the mask correlation feature. *)
Inductive tracks (x : pyval) (w : world) : gmap string pyval → world → Prop :=
| tracks_intro backbone neck rpn_head mask_head zf xf_local xf_init xf_last xf_n
      out cls loc out' mask mask_corr_feature :
    MASK_MASK cfg = true →
    ADJUST_ADJUST cfg = true →
    attrs w !! "backbone" = Some backbone →
    py_call backbone [x] = inr xf_local →
    py_init xf_local = inr xf_init →
    py_last xf_local = inr xf_last →
    attrs w !! "neck" = Some neck →
    py_call neck [xf_last] = inr xf_n →
    attrs w !! "rpn_head" = Some rpn_head →
    attrs w !! "zf" = Some zf →
    py_call rpn_head [zf; xf_n] = inr out →
    unpack2 out = inr (cls, loc) →
    attrs w !! "mask_head" = Some mask_head →
    py_call mask_head [zf; xf_n] = inr out' →
    unpack2 out' = inr (mask, mask_corr_feature) →
    tracks x w
      (<["cls" := cls]> (<["loc" := loc]> (<["mask" := mask]> ∅)))
      (World _ (<["mask_corr_feature" := mask_corr_feature]>
                  (<["xf" := xf_init]> (attrs w)))
         (files w) (stdout w)).

End sessions.

(** The object before [__init__] has run, on an empty disk. *)
Definition blank `{TorchTypes} : world := World _ ∅ ∅ [].

(** ** Vocabulary of the properties *)

Section vocabulary.
Context `{TorchOps}.

(** The attributes a computation may write. *)
Definition writes {A : Type} (names : list string) (m : M A) : Prop :=
  ∀ w k, k ∉ names → attrs (final (m w)) !! k = attrs w !! k.

(** The attributes a computation's outcome depends on. *)
Definition agree (names : list string) (w w' : world) : Prop :=
  ∀ k, k ∈ names → attrs w !! k = attrs w' !! k.

Definition reads {A : Type} (names : list string) (m : M A) : Prop :=
  ∀ w w', agree names w w' →
    result (m w) = result (m w') ∧ agree names (final (m w)) (final (m w')).

(** The attribute a factory's outcome leaves behind. *)
Definition built_by (r : exn + module) : option pyval :=
  match r with
  | inr m => Some (VModule m)
  | inl _ => None
  end.

Definition submodule (w : world) (name : string) : Prop :=
  ∃ m, attrs w !! name = Some (VModule m).

Definition submodules : list string :=
  ["backbone"; "neck"; "rpn_head"; "mask_head"; "refine_head"].

(** The world with another embedding cached. *)
Definition with_zf (v : pyval) (w : world) : world :=
  World _ (<["zf" := v]> (attrs w)) (files w) (stdout w).

(** The world after a caller's [model.name = v]. *)
Definition with_attr (name : string) (v : pyval) (w : world) : world :=
  World _ (<[name := v]> (attrs w)) (files w) (stdout w).

(** The calls that cache nothing [mask_refine] reads. *)
Definition quiet (o : op) : bool :=
  match o with
  | Track _ | Forward _ => false
  | _ => true
  end.

Definition is_template (o : op) : bool :=
  match o with
  | Template _ => true
  | _ => false
  end.

Definition is_track (o : op) : bool :=
  match o with
  | Track _ => true
  | _ => false
  end.

(** The keys [forward] reads from its batch, in the order it reads them. *)
Definition batch_keys : list string :=
  ["template"; "search"; "label_cls"; "label_loc"; "label_loc_weight"].

(** The files [save_script] can write under [save_path]. *)
Definition export_paths (save_path : string) : list string :=
  os_path_join save_path <$>
    ["back_bone.pt"; "neck.pt"; "rpn_head.pt"; "mask_head.pt"; "refine_head.pt"].

(** The product of a shape's dimensions: the number of elements. *)
Definition numel (shape : list Z) : Z := foldr Z.mul 1 shape.

End vocabulary.

(** ** A small instance *)

(** Integer "tensors" and five named networks, to run the class on. *)
Module Demo.

Inductive net : Type := Backbone | Neck | RpnHead | MaskHead | RefineHead.

#[local] Instance types : TorchTypes :=
  {| tensor := Z; module := net; script := net; number := Z; kwargs := unit |}.

(** The sum of the tensors inside a value. *)
Fixpoint weight (v : pyval) : Z :=
  match v with
  | VTensor t => t
  | VList l | VTuple l =>
      (fix sum (l : list pyval) : Z :=
         match l with
         | [] => 0
         | a :: l => weight a + sum l
         end) l
  | _ => 0
  end.

(** The backbone returns three feature levels; the neck and the heads
    return tensors built from the weights of their inputs; the refine head
    returns its three inputs as they came. *)
Definition run_net (m : net) (args : list pyval) : exn + pyval :=
  match m, args with
  | Backbone, [VTensor t] =>
      inr (VList [VTensor (t + 1); VTensor (t + 2); VTensor (t + 3)])
  | Neck, [v] => inr (VTensor (10 * weight v))
  | RpnHead, [a; b] =>
      inr (VTuple [VTensor (weight a + weight b); VTensor (weight a - weight b)])
  | MaskHead, [a; b] =>
      inr (VTuple [VTensor (weight a * weight b); VTensor (weight a * weight b + 1)])
  | RefineHead, [a; b; c] => inr (VTuple [a; b; c])
  | _, _ => inl (RuntimeError 1)
  end.

#[local] Instance ops : TorchOps :=
  {| get_backbone := λ _ _, inr Backbone;
     get_neck := λ _ _, inr Neck;
     get_rpn_head := λ _ _, inr RpnHead;
     get_mask_head := λ _ _, inr MaskHead;
     get_refine_head := λ _, inr RefineHead;
     module_call := run_net;
     select_cross_entropy_loss := λ a b, inr (weight a + weight b);
     weight_l1_loss := λ a b c, inr (weight a * weight c + weight b);
     tensor_last := λ t, inr (VTensor t);
     tensor_init := λ t, inr (VTensor t);
     tensor_iter := λ _, inl TypeError;
     tensor_cuda := λ t, inr t;
     module_cuda := λ m, inr m;
     module_truthy := λ _, true;
     tensor_size := λ _, [1; 10; 5; 5];
     tensor_view := λ t _, inr t;
     tensor_permute := λ t _, inr t;
     tensor_contiguous := λ t, t;
     F_log_softmax := λ t _, inr (t - 1);
     tensor_scale := Z.mul;
     tensor_mul := λ t u, inr (t * u);
     tensor_add := λ t u, inr (t + u);
     number_mul := Z.mul;
     number_add := Z.add;
     jit_script := λ m, inr m;
     script_save := λ _ _, inr tt |}.

(** A configuration with the given flags and loss weights 1, 2 and 3. *)
Definition cfg (adjust mask refine : bool) : config :=
  {| BACKBONE_TYPE := "resnet50"; BACKBONE_KWARGS := tt;
     ADJUST_ADJUST := adjust; ADJUST_TYPE := "AdjustAllLayer"; ADJUST_KWARGS := tt;
     RPN_TYPE := "MultiRPN"; RPN_KWARGS := tt;
     MASK_MASK := mask; MASK_TYPE := "MaskCorr"; MASK_KWARGS := tt;
     REFINE_REFINE := refine; REFINE_TYPE := "Refine";
     TRAIN_CLS_WEIGHT := 1; TRAIN_LOC_WEIGHT := 2; TRAIN_MASK_WEIGHT := 3 |}.

(** The model a configuration builds. *)
Definition model (c : config) : world :=
  final (__init__ c blank).

Definition image (n : Z) : pyval := VTensor n.

Definition batch : gmap string pyval :=
  <["template" := image 1]> (<["search" := image 2]> (<["label_cls" := image 3]>
  (<["label_loc" := image 4]> (<["label_loc_weight" := image 5]> ∅)))).

(** The configurations of the four tracker families: adjust, mask and
    refine flags. *)
Definition siammask : config := cfg true true true.
Definition siammask_base : config := cfg true true false.
Definition siamrpn_pp : config := cfg true false false.
Definition siamrpn : config := cfg false false false.

(** A session that has seen a template, and one in which the caller has
    then assigned search features and a mask correlation feature. *)
Definition templated (c : config) (z : Z) : world :=
  final (template c (image z) (model c)).

Definition assigned (c : config) (z : Z) : world :=
  with_attr "mask_corr_feature" (image 23001)
    (with_attr "xf" (VList [image 21; image 22]) (templated c z)).

End Demo.
(** * Running computations *)

Section laws.
Context `{TorchOps}.

Lemma bind_run {A B : Type} (m : M A) (f : A → M B) (w : world) :
  (m ≫= f) w =
  match m w with
  | (inr a, w') => f a w'
  | (inl e, w') => (inl e, w')
  end.
Proof. reflexivity. Qed.

Lemma bind_raises {A B : Type} (m : M A) (f : A → M B) (w : world) (e : exn) :
  result (m w) = inl e → result ((m ≫= f) w) = inl e.
Proof. rewrite bind_run. destruct (m w) as [[?|?] ?]; naive_solver. Qed.

Lemma getattr_some (name : string) (v : pyval) (w : world) :
  attrs w !! name = Some v → getattr name w = (inr v, w).
Proof. unfold getattr. by intros ->. Qed.

Lemma getattr_none (name : string) (w : world) :
  attrs w !! name = None → getattr name w = (inl (AttributeError name), w).
Proof. unfold getattr. by intros ->. Qed.

(** None of Python's arithmetic accepts [None] on the right. *)
Lemma py_mul_None (a : pyval) : py_mul a VNone = inl TypeError.
Proof. by destruct a. Qed.

Lemma writes_ret {A : Type} names (a : A) : writes names (mret a).
Proof. by intros w k _. Qed.

Lemma writes_raise {A : Type} names (e : exn) : writes names (raise (A := A) e).
Proof. by intros w k _. Qed.

Lemma writes_lift {A : Type} names (r : exn + A) : writes names (lift r).
Proof. by intros w k _. Qed.

Lemma writes_call names f args : writes names (call f args).
Proof. apply writes_lift. Qed.

Lemma writes_local names x v : writes names (local x v).
Proof. destruct v; [apply writes_ret | apply writes_raise]. Qed.

Lemma writes_getattr names name : writes names (getattr name).
Proof. intros w k _. unfold getattr. by destruct (attrs w !! name). Qed.

Lemma writes_setattr names name v : name ∈ names → writes names (setattr name v).
Proof.
  intros Hin w k Hk. unfold setattr; simpl.
  apply lookup_insert_ne. by intros ->.
Qed.

Lemma writes_save names s path : writes names (save s path).
Proof. intros w k _. unfold save, final. by destruct (script_save s path). Qed.

Lemma writes_print names line : writes names (print line).
Proof. by intros w k _. Qed.

Lemma writes_bind {A B : Type} names (m : M A) (f : A → M B) :
  writes names m → (∀ a, writes names (f a)) → writes names (m ≫= f).
Proof.
  intros Hm Hf w k Hk. rewrite bind_run.
  specialize (Hm w k Hk). destruct (m w) as [[e|a] w']; simpl in *; [done|].
  by rewrite (Hf a w' k Hk).
Qed.

Lemma reads_ret {A : Type} names (a : A) : reads names (mret a).
Proof. by intros w w' Hw. Qed.

Lemma reads_raise {A : Type} names (e : exn) : reads names (raise (A := A) e).
Proof. by intros w w' Hw. Qed.

Lemma reads_lift {A : Type} names (r : exn + A) : reads names (lift r).
Proof. by intros w w' Hw. Qed.

Lemma reads_call names f args : reads names (call f args).
Proof. apply reads_lift. Qed.

Lemma reads_local names x v : reads names (local x v).
Proof. destruct v; [apply reads_ret | apply reads_raise]. Qed.

Lemma reads_getattr names name : name ∈ names → reads names (getattr name).
Proof.
  intros Hin w w' Hw. unfold getattr. rewrite <- (Hw name Hin).
  by destruct (attrs w !! name).
Qed.

Lemma reads_setattr names name v : reads names (setattr name v).
Proof.
  intros w w' Hw. split; [done|]. intros k Hk. unfold setattr; simpl.
  destruct (decide (name = k)) as [->|Hne].
  - by rewrite !lookup_insert_eq.
  - rewrite !lookup_insert_ne by done. by apply Hw.
Qed.

Lemma reads_bind {A B : Type} names (m : M A) (f : A → M B) :
  reads names m → (∀ a, reads names (f a)) → reads names (m ≫= f).
Proof.
  intros Hm Hf w w' Hw. rewrite !bind_run.
  destruct (Hm w w' Hw) as [Hr Hw'].
  destruct (m w) as [[e|a] w1], (m w') as [[e'|a'] w1'];
    unfold result in Hr; simpl in *; simplify_eq; [done|].
  by apply Hf.
Qed.

End laws.

Create HintDb frame.

#[global] Hint Resolve writes_ret writes_raise writes_lift writes_call
  writes_local writes_getattr writes_save writes_print : frame.
#[global] Hint Resolve reads_ret reads_raise reads_lift reads_call
  reads_local reads_setattr : frame.

(** Walks down a method body, one bind or branch at a time. *)
Ltac frame :=
  repeat first
    [ apply writes_bind; [|intros ?]
    | apply reads_bind; [|intros ?]
    | match goal with
      | |- writes _ (if ?b then _ else _) => destruct b
      | |- reads _ (if ?b then _ else _) => destruct b
      | |- writes _ (match ?p with (_, _) => _ end) => destruct p
      | |- reads _ (match ?p with (_, _) => _ end) => destruct p
      end
    | apply writes_setattr; set_solver
    | apply reads_getattr; set_solver
    | solve [eauto with frame] ].

Section frames.
Context `{TorchOps} (cfg : config).

Lemma init_writes :
  writes ["backbone"; "neck"; "rpn_head"; "mask_head"; "refine_head"] (__init__ cfg).
Proof. unfold __init__. frame. Qed.

Lemma template_writes z : writes ["zf"] (template cfg z).
Proof. unfold template. frame. Qed.

Lemma track_body_writes x :
  writes ["xf"; "mask_corr_feature"] (track_body cfg x).
Proof. unfold track_body. frame. Qed.


Lemma track_writes x : writes [] (track cfg x).
Proof. by intros w k _. Qed.

Lemma mask_refine_writes pos : writes [] (mask_refine pos).
Proof. unfold mask_refine. frame. Qed.

Lemma log_softmax_writes cls : writes [] (log_softmax cls).
Proof. unfold log_softmax. frame. Qed.

Lemma forward_writes data :
  writes ["xf_refine"; "mask_corr_feature"] (forward cfg data).
Proof. unfold forward. frame. Qed.

End frames.

Section more_frames.
Context `{TorchOps} (cfg : config).

Lemma save_script_writes save_path : writes [] (save_script save_path).
Proof. unfold save_script, export. frame. Qed.

Lemma track_body_reads x :
  reads ["backbone"; "neck"; "rpn_head"; "mask_head"; "zf"] (track_body cfg x).
Proof. unfold track_body. frame. Qed.


(** No call writes an attribute other than these four. *)
Lemma step_frame (o : op) (w : world) (k : string) :
  k ∉ ["zf"; "xf"; "mask_corr_feature"; "xf_refine"] →
  attrs (step cfg w o) !! k = attrs w !! k.
Proof.
  intros Hk. rewrite !not_elem_of_cons in Hk.
  destruct o; simpl;
    [ apply template_writes | reflexivity | apply mask_refine_writes
    | apply log_softmax_writes | apply forward_writes | apply save_script_writes ];
    rewrite ?not_elem_of_cons; tauto.
Qed.

Lemma run_frame (ops : list op) (w : world) (k : string) :
  k ∉ ["zf"; "xf"; "mask_corr_feature"; "xf_refine"] →
  attrs (run cfg ops w) !! k = attrs w !! k.
Proof.
  intros Hk. revert w. induction ops as [|o ops IH]; intros w; [done|].
  unfold run in *; simpl. rewrite IH. by apply step_frame.
Qed.

End more_frames.

(** Opens the monad's operations, so that a method body becomes nested
    matches on its steps. *)
Ltac unfold_monad :=
  unfold mbind, M_bind, mret, M_ret, lift, raise, call, getattr, setattr, local,
    with_zf, result, final in *.

(** Reduces after a step, sending lookups past the writes of other
    attributes. *)
Ltac reduce := simpl; rewrite ?lookup_insert_ne by done; simpl.

(** * The constructor *)

Section constructor.
Context `{TorchOps} (cfg : config).

Lemma init_wires (w0 : world) :
  attrs w0 = ∅ →
  result (__init__ cfg w0) = inr tt →
  let w := final (__init__ cfg w0) in
  attrs w !! "backbone" =
    built_by (get_backbone (BACKBONE_TYPE cfg) (BACKBONE_KWARGS cfg)) ∧
  attrs w !! "rpn_head" =
    built_by (get_rpn_head (RPN_TYPE cfg) (RPN_KWARGS cfg)) ∧
  attrs w !! "neck" =
    (if ADJUST_ADJUST cfg
     then built_by (get_neck (ADJUST_TYPE cfg) (ADJUST_KWARGS cfg)) else None) ∧
  attrs w !! "mask_head" =
    (if MASK_MASK cfg
     then built_by (get_mask_head (MASK_TYPE cfg) (MASK_KWARGS cfg)) else None) ∧
  attrs w !! "refine_head" =
    (if MASK_MASK cfg && REFINE_REFINE cfg
     then built_by (get_refine_head (REFINE_TYPE cfg)) else None) ∧
  (∀ k, k ∉ submodules → attrs w !! k = None).
Proof.
  intros Hw0 Hok w.
  assert (∀ k, k ∉ submodules → attrs w !! k = None) as Hrest.
  { intros k Hk. subst w. rewrite (init_writes cfg w0 k Hk), Hw0.
    apply lookup_empty. }
  split_and!; [..|exact Hrest]; clear Hrest; subst w; revert Hok;
    unfold __init__; unfold_monad;
    repeat case_match; simpl; intros; simplify_eq/=; rewrite ?Hw0;
    by simplify_map_eq.
Qed.

(** Every factory returned if the constructor did. *)
Lemma init_built (w0 : world) :
  result (__init__ cfg w0) = inr tt →
  is_Some (built_by (get_backbone (BACKBONE_TYPE cfg) (BACKBONE_KWARGS cfg))) ∧
  is_Some (built_by (get_rpn_head (RPN_TYPE cfg) (RPN_KWARGS cfg))) ∧
  (ADJUST_ADJUST cfg = true →
   is_Some (built_by (get_neck (ADJUST_TYPE cfg) (ADJUST_KWARGS cfg)))) ∧
  (MASK_MASK cfg = true →
   is_Some (built_by (get_mask_head (MASK_TYPE cfg) (MASK_KWARGS cfg)))) ∧
  (MASK_MASK cfg = true → REFINE_REFINE cfg = true →
   is_Some (built_by (get_refine_head (REFINE_TYPE cfg)))).
Proof.
  unfold __init__. unfold_monad.
  repeat case_match; simpl; intros; simplify_eq/=; repeat split; by eauto.
Qed.

Lemma built_by_submodule (w : world) (name : string) (r : exn + module) :
  attrs w !! name = built_by r → is_Some (built_by r) → submodule w name.
Proof. intros Hw [v Hv]. destruct r as [e|m]; [done|]. by exists m. Qed.

(** C3: a constructed model has [backbone] and [rpn_head]; it has [neck]
    exactly under the adjust flag, [mask_head] exactly under the mask flag
    and [refine_head] exactly under the mask and refine flags together
    (without the flag the attribute does not exist at all); and after any
    sequence of [template], [track], [mask_refine], [log_softmax],
    [forward] and [save_script] calls, returning or raising, each of the
    five attributes is what the constructor left. *)
Theorem submodules_fixed_at_init (w0 : world) :
  attrs w0 = ∅ →
  result (__init__ cfg w0) = inr tt →
  let w := final (__init__ cfg w0) in
  submodule w "backbone" ∧
  submodule w "rpn_head" ∧
  (if ADJUST_ADJUST cfg then submodule w "neck" else attrs w !! "neck" = None) ∧
  (if MASK_MASK cfg then submodule w "mask_head"
   else attrs w !! "mask_head" = None) ∧
  (if MASK_MASK cfg && REFINE_REFINE cfg then submodule w "refine_head"
   else attrs w !! "refine_head" = None) ∧
  (∀ ops name, name ∈ submodules →
     attrs (run cfg ops w) !! name = attrs w !! name).
Proof.
  intros Hw0 Hok w.
  destruct (init_wires w0 Hw0 Hok) as (Hb & Hr & Hn & Hm & Hf & _).
  destruct (init_built w0 Hok) as (Bb & Br & Bn & Bm & Bf).
  fold w in Hb, Hr, Hn, Hm, Hf.
  split_and!.
  - eauto using built_by_submodule.
  - eauto using built_by_submodule.
  - destruct (ADJUST_ADJUST cfg); eauto using built_by_submodule.
  - destruct (MASK_MASK cfg); eauto using built_by_submodule.
  - destruct (MASK_MASK cfg), (REFINE_REFINE cfg); simpl in *;
      eauto using built_by_submodule.
  - intros ops name Hin. apply run_frame. unfold submodules in Hin.
    rewrite !not_elem_of_cons. rewrite !elem_of_cons in Hin.
    split_and!; try apply not_elem_of_nil; intros ->;
      repeat (destruct Hin as [?|Hin]; [done|]); by apply elem_of_nil in Hin.
Qed.

End constructor.

(** * template and the function under track *)

Section inference.
Context `{TorchOps} (cfg : config).

(** [template] on a model whose backbone (and, under the adjust flag,
    neck) is in place: it caches the embedding and returns [None], or
    raises what the failing step raised and caches nothing. *)
Lemma template_run (z : pyval) (w : world) (backbone neck : pyval) :
  attrs w !! "backbone" = Some backbone →
  (ADJUST_ADJUST cfg = true → attrs w !! "neck" = Some neck) →
  template cfg z w =
    match embedding cfg backbone neck z with
    | inr zf => (inr tt, with_zf zf w)
    | inl e => (inl e, w)
    end.
Proof.
  intros Hb Hn. unfold template, embedding. unfold_monad. rewrite Hb.
  destruct (py_call backbone [z]) as [e|zf]; [done|].
  destruct (MASK_MASK cfg), (ADJUST_ADJUST cfg); simpl;
    try destruct (py_last zf) as [e|zf']; simpl; try done;
    rewrite Hn by done; by destruct (py_call neck _).
Qed.

Lemma track_body_returns (x : pyval) (w : world) d w' :
  tracks cfg x w d w' → track_body cfg x w = (inr d, w').
Proof.
  destruct 1 as [b n r mh zf xl xi xla xn out cls loc out' mask mcf
    Hmask Hadj Hb Hcb Hi Hl Hn Hcn Hr Hzf Hcr Hu Hmh Hcm Hu'].
  unfold track_body. unfold_monad. rewrite Hmask, Hadj.
  repeat (simpl; first
    [ rewrite lookup_insert_ne by done
    | rewrite Hb | rewrite Hcb | rewrite Hi | rewrite Hl | rewrite Hn
    | rewrite Hcn | rewrite Hr | rewrite Hzf | rewrite Hcr | rewrite Hu
    | rewrite Hmh | rewrite Hcm | rewrite Hu' ]).
  done.
Qed.

Lemma track_body_inv (x : pyval) (w : world) d :
  result (track_body cfg x w) = inr d → tracks cfg x w d (final (track_body cfg x w)).
Proof.
  unfold track_body. unfold_monad.
  destruct (MASK_MASK cfg) eqn:Hmask, (ADJUST_ADJUST cfg) eqn:Hadj; simpl.
  2-4: repeat (case_match; simplify_eq/=; try done).
  destruct (attrs w !! "backbone") as [b|] eqn:Hb; [|done].
  destruct (py_call b [x]) as [|xl] eqn:Hcb; [done|].
  destruct (py_init xl) as [|xi] eqn:Hi; [done|]. reduce.
  destruct (py_last xl) as [|xla] eqn:Hl; [done|]. reduce.
  destruct (attrs w !! "neck") as [n|] eqn:Hn; [|done].
  destruct (py_call n [xla]) as [|xn] eqn:Hcn; [done|]. reduce.
  destruct (attrs w !! "rpn_head") as [r|] eqn:Hr; [|done]. reduce.
  destruct (attrs w !! "zf") as [zf|] eqn:Hzf; [|done]. reduce.
  destruct (py_call r [zf; xn]) as [|out] eqn:Hcr; [done|]. reduce.
  destruct (unpack2 out) as [|[cls loc]] eqn:Hu; [done|]. reduce.
  destruct (attrs w !! "mask_head") as [mh|] eqn:Hmh; [|done]. reduce.
  rewrite Hzf. reduce.
  destruct (py_call mh [zf; xn]) as [|out'] eqn:Hcm; [done|]. reduce.
  destruct (unpack2 out') as [|[mask mcf]] eqn:Hu'; [done|]. reduce.
  intros [= <-]. by econstructor.
Qed.


(** Under both flags the neck-adjusted search feature is the embedding of
    the search region. *)
Lemma search_embedding (x backbone neck xf_local xf_last xf_n : pyval) :
  MASK_MASK cfg = true → ADJUST_ADJUST cfg = true →
  py_call backbone [x] = inr xf_local →
  py_last xf_local = inr xf_last →
  py_call neck [xf_last] = inr xf_n →
  embedding cfg backbone neck x = inr xf_n.
Proof. unfold embedding. by intros -> -> -> -> ->. Qed.

End inference.

(** * The cached embedding and track *)

Section ordering.
Context `{TorchOps} (cfg : config).

(** In a session the cached embedding is the one of the last [template]
    call that returned. *)
Lemma run_cached (backbone neck : pyval) (ops : list op) (w : world) :
  attrs w !! "backbone" = Some backbone →
  (ADJUST_ADJUST cfg = true → attrs w !! "neck" = Some neck) →
  attrs (run cfg ops w) !! "zf" = cached cfg backbone neck (attrs w !! "zf") ops.
Proof.
  revert w. induction ops as [|o ops IH]; intros w Hb Hn; [done|].
  unfold run, cached in *; simpl. rewrite IH.
  - f_equal. destruct o; simpl;
      try reflexivity;
      try (first [ apply mask_refine_writes
                 | apply log_softmax_writes | apply forward_writes
                 | apply save_script_writes ];
           rewrite ?not_elem_of_cons; split_and?; (done || apply not_elem_of_nil)).
    rewrite (template_run cfg z w backbone neck Hb Hn).
    destruct (embedding cfg backbone neck z); simpl; [done|].
    apply lookup_insert_eq.
  - rewrite step_frame; [done|].
    rewrite !not_elem_of_cons; split_and?; (done || apply not_elem_of_nil).
  - intros Hadj. rewrite step_frame; [by apply Hn|].
    rewrite !not_elem_of_cons; split_and?; (done || apply not_elem_of_nil).
Qed.

Lemma track_body_absent_zf_at (x v : pyval) (w : world) :
  attrs w !! "zf" = None →
  ∃ e, result (track_body cfg x w) = inl e ∧
       (e = AttributeError "zf" ∨ result (track_body cfg x (with_zf v w)) = inl e).
Proof.
  intros Hzf. unfold track_body. unfold_monad. reduce.
  destruct (attrs w !! "backbone") as [b|]; reduce; [|by eauto].
  destruct (py_call b [x]) as [|xl]; reduce; [by eauto|].
  destruct (MASK_MASK cfg), (ADJUST_ADJUST cfg); reduce.
  - destruct (py_init xl) as [|xi]; reduce; [by eauto|].
    destruct (py_last xl) as [|xla]; reduce; [by eauto|].
    destruct (attrs w !! "neck") as [n|]; reduce; [|by eauto].
    destruct (py_call n [xla]) as [|xn]; reduce; [by eauto|].
    destruct (attrs w !! "rpn_head") as [r|]; reduce; [|by eauto].
    rewrite Hzf. by eauto.
  - destruct (py_init xl) as [|xi]; reduce; [by eauto|].
    destruct (py_last xl) as [|xla]; reduce; [by eauto|].
    destruct (attrs w !! "rpn_head") as [r|]; reduce; [|by eauto].
    rewrite Hzf. by eauto.
  - destruct (attrs w !! "neck") as [n|]; reduce; by eauto.
  - destruct (attrs w !! "rpn_head") as [r|]; reduce; [|by eauto].
    rewrite Hzf. by eauto.
Qed.

(** Without a cached embedding the function under the decorator raises, and the absence matters at
    the read of [self.zf] only: any other failure is the same whatever
    embedding one caches. *)
Lemma track_body_absent_zf (x : pyval) (w : world) :
  attrs w !! "zf" = None →
  ∃ e, result (track_body cfg x w) = inl e ∧
       (e = AttributeError "zf" ∨
        ∀ v, result (track_body cfg x (with_zf v w)) = inl e).
Proof.
  intros Hzf. destruct (track_body_absent_zf_at x VNone w Hzf) as (e & He & _).
  exists e. split; [done|].
  destruct (decide (e = AttributeError "zf")) as [|Hne]; [by left|right].
  intros v. destruct (track_body_absent_zf_at x v w Hzf) as (e' & He' & [->|Hv]);
    congruence.
Qed.

(** The function under the decorator runs the backbone before anything
    else. *)
Lemma track_body_backbone_first (x : pyval) (w : world) (backbone : pyval) (e : exn) :
  attrs w !! "backbone" = Some backbone →
  py_call backbone [x] = inl e →
  track_body cfg x w = (inl e, w).
Proof. intros Hb Hc. unfold track_body. unfold_monad. by rewrite Hb, Hc. Qed.

(** Under both flags a run without cached embedding gets as far as the
    rpn head's arguments: the search features are cached by then. *)
Lemma track_body_fails_at_read (x : pyval) (w : world)
    (backbone neck rpn_head xf_local xf_init xf_last xf_n : pyval) :
  MASK_MASK cfg = true → ADJUST_ADJUST cfg = true →
  attrs w !! "backbone" = Some backbone →
  py_call backbone [x] = inr xf_local →
  py_init xf_local = inr xf_init →
  py_last xf_local = inr xf_last →
  attrs w !! "neck" = Some neck →
  py_call neck [xf_last] = inr xf_n →
  attrs w !! "rpn_head" = Some rpn_head →
  attrs w !! "zf" = None →
  track_body cfg x w =
    (inl (AttributeError "zf"),
     World _ (<["xf" := xf_init]> (attrs w)) (files w) (stdout w)).
Proof.
  intros Hmask Hadj Hb Hcb Hi Hl Hn Hcn Hr Hzf.
  unfold track_body. unfold_monad. rewrite Hmask, Hadj.
  repeat (reduce; first
    [ rewrite Hb | rewrite Hcb | rewrite Hi | rewrite Hl | rewrite Hn
    | rewrite Hcn | rewrite Hr | rewrite Hzf ]).
  done.
Qed.




End ordering.

(** * mask_refine *)

Section refinement.
Context `{TorchOps} (cfg : config).

Lemma mask_refine_run (pos : pyval) (w : world) (refine_head xf mcf : pyval) :
  attrs w !! "refine_head" = Some refine_head →
  attrs w !! "xf" = Some xf →
  attrs w !! "mask_corr_feature" = Some mcf →
  mask_refine pos w = (py_call refine_head [xf; mcf; pos], w).
Proof.
  intros Hr Hx Hm. unfold mask_refine. unfold_monad. rewrite Hr, Hx, Hm.
  by destruct (py_call refine_head _).
Qed.

Lemma mask_refine_reads (pos : pyval) :
  reads ["refine_head"; "xf"; "mask_corr_feature"] (mask_refine pos).
Proof. unfold mask_refine. frame. Qed.

(** Calls other than [track] and [forward] leave what [mask_refine] reads. *)
Lemma run_quiet (ops : list op) (w : world) (k : string) :
  forallb quiet ops = true → k ≠ "zf" →
  attrs (run cfg ops w) !! k = attrs w !! k.
Proof.
  intros Hq Hk. revert w Hq. induction ops as [|o ops IH]; intros w Hq; [done|].
  simpl in Hq. apply andb_prop in Hq as [Ho Hq].
  unfold run in *; simpl. rewrite IH by done.
  destruct o; try done; simpl;
    [ apply template_writes | apply mask_refine_writes
    | apply log_softmax_writes | apply save_script_writes ];
    rewrite ?not_elem_of_cons; split_and?; (done || apply not_elem_of_nil).
Qed.

(** C7, amended: [mask_refine] does not consume the template embedding.
    It reads [self.refine_head], [self.xf] and [self.mask_corr_feature],
    in this order, raises [AttributeError] for the first that is absent,
    and otherwise returns the refine head's output for the three of [xf],
    [mask_corr_feature] and [pos], changing nothing; it never reads
    [self.zf], so its outcome is the same whatever embedding is cached, or
    none. *)
Theorem mask_refine_reads_search_features (pos : pyval) (w : world) :
  mask_refine pos w =
    (match attrs w !! "refine_head" with
     | None => inl (AttributeError "refine_head")
     | Some refine_head =>
         match attrs w !! "xf" with
         | None => inl (AttributeError "xf")
         | Some xf =>
             match attrs w !! "mask_corr_feature" with
             | None => inl (AttributeError "mask_corr_feature")
             | Some mask_corr_feature =>
                 py_call refine_head [xf; mask_corr_feature; pos]
             end
         end
     end, w) ∧
  (∀ w', (∀ k, k ≠ "zf" → attrs w' !! k = attrs w !! k) →
         result (mask_refine pos w') = result (mask_refine pos w)).
Proof.
  split.
  - unfold mask_refine. unfold_monad.
    destruct (attrs w !! "refine_head"); simpl; [|done].
    destruct (attrs w !! "xf"); simpl; [|done].
    destruct (attrs w !! "mask_corr_feature"); simpl; [|done].
    by destruct (py_call _ _).
  - intros w' Hsame. apply mask_refine_reads. intros k Hk. apply Hsame.
    intros ->. rewrite !elem_of_cons in Hk.
    destruct Hk as [?|[?|[?|Hk]]]; try done. by apply elem_of_nil in Hk.
Qed.

End refinement.

(** * forward *)

Section training.
Context `{TorchOps} (cfg : config).

(** Without the mask flag [forward] writes no attribute at all. *)
Lemma forward_unmasked_writes (data : gmap string pyval) :
  MASK_MASK cfg = false → writes [] (forward cfg data).
Proof. intros Hmask. unfold forward. rewrite Hmask. frame. Qed.

(** Under the mask flag no call of [forward] returns. *)
Lemma forward_masked_raises (data : gmap string pyval) (w : world) :
  MASK_MASK cfg = true → ∃ e, result (forward cfg data w) = inl e.
Proof.
  intros Hmask. unfold forward, log_softmax. unfold_monad.
  rewrite Hmask. simpl.
  repeat (case_match; simplify_eq/=; eauto).
Qed.

(** Once a call under the mask flag has cached the mask correlation
    feature, it raises [TypeError]: the next statement multiplies the
    mask weight by [None]. *)
Lemma forward_masked_type_error (data : gmap string pyval) (w : world) :
  MASK_MASK cfg = true →
  attrs w !! "mask_corr_feature" = None →
  is_Some (attrs (final (forward cfg data w)) !! "mask_corr_feature") →
  result (forward cfg data w) = inl TypeError.
Proof.
  intros Hmask Hnone. unfold forward, log_softmax. unfold_monad.
  rewrite Hmask. simpl.
  repeat (case_match; simplify_eq/=; try done);
    intros [v Hv]; by simplify_map_eq.
Qed.

(** [log_softmax] is a function of its argument. *)
Lemma log_softmax_pure (cls : pyval) (w : world) :
  log_softmax cls w = (result (log_softmax cls blank), w).
Proof.
  unfold log_softmax. unfold_monad.
  repeat (case_match; simplify_eq/=; try done).
Qed.

(** What a returning [forward] call without the mask flag computed: the
    embeddings of template and search image, the rpn head's two outputs,
    the two losses and their weighted sum. *)
Lemma forward_unmasked_returns (data : gmap string pyval) (w : world) outputs :
  MASK_MASK cfg = false →
  result (forward cfg data w) = inr outputs →
  ∃ backbone neck rpn_head template search label_cls label_loc label_loc_weight
    zf xf out cls loc cls' cls_loss loc_loss total_loss,
    attrs w !! "backbone" = Some backbone ∧
    (ADJUST_ADJUST cfg = true → attrs w !! "neck" = Some neck) ∧
    attrs w !! "rpn_head" = Some rpn_head ∧
    fetch data "template" = inr template ∧
    fetch data "search" = inr search ∧
    fetch data "label_cls" = inr label_cls ∧
    fetch data "label_loc" = inr label_loc ∧
    fetch data "label_loc_weight" = inr label_loc_weight ∧
    embedding cfg backbone neck template = inr zf ∧
    embedding cfg backbone neck search = inr xf ∧
    py_call rpn_head [zf; xf] = inr out ∧
    unpack2 out = inr (cls, loc) ∧
    result (log_softmax cls w) = inr cls' ∧
    select_cross_entropy_loss cls' label_cls = inr cls_loss ∧
    weight_l1_loss loc label_loc label_loc_weight = inr loc_loss ∧
    tensor_add (tensor_scale (TRAIN_CLS_WEIGHT cfg) cls_loss)
               (tensor_scale (TRAIN_LOC_WEIGHT cfg) loc_loss) = inr total_loss ∧
    outputs = <["loc_loss" := VTensor loc_loss]>
                (<["cls_loss" := VTensor cls_loss]>
                   (<["total_loss" := VTensor total_loss]> ∅)).
Proof.
  intros Hmask. unfold forward, embedding. unfold_monad. rewrite Hmask.
  destruct (fetch data "template") as [|template] eqn:Ht; simpl; [done|].
  destruct (fetch data "search") as [|search] eqn:Hs; simpl; [done|].
  destruct (fetch data "label_cls") as [|label_cls] eqn:Hlc; simpl; [done|].
  destruct (fetch data "label_loc") as [|label_loc] eqn:Hll; simpl; [done|].
  destruct (fetch data "label_loc_weight") as [|label_loc_weight] eqn:Hlw; simpl; [done|].
  simpl. destruct (attrs w !! "backbone") as [b|] eqn:Hb; simpl; [|done].
  destruct (py_call b [template]) as [|zf0] eqn:Hz; simpl; [done|].
  rewrite Hb; simpl.
  destruct (py_call b [search]) as [|xf0] eqn:Hx; simpl; [done|].
  destruct (ADJUST_ADJUST cfg) eqn:Hadj; simpl.
  - destruct (attrs w !! "neck") as [n|] eqn:Hn; simpl; [|done].
    destruct (py_call n [zf0]) as [|zf] eqn:Hnz; simpl; [done|].
    rewrite Hn; simpl.
    destruct (py_call n [xf0]) as [|xf] eqn:Hnx; simpl; [done|]. simpl.
    destruct (attrs w !! "rpn_head") as [r|] eqn:Hr; simpl; [|done].
    destruct (py_call r [zf; xf]) as [|out] eqn:Hcr; simpl; [done|].
    destruct (unpack2 out) as [|[cls loc]] eqn:Hu; simpl; [done|]. simpl.
    rewrite (log_softmax_pure cls w).
    destruct (result (log_softmax cls blank)) as [|cls'] eqn:Hsm; simpl; [done|].
    destruct (select_cross_entropy_loss cls' label_cls) as [|cls_loss] eqn:Hcl;
      simpl; [done|]. simpl.
    destruct (weight_l1_loss loc label_loc label_loc_weight) as [|loc_loss] eqn:Hl1;
      simpl; [done|]. simpl.
    destruct (tensor_add _ _) as [|total] eqn:Hadd; simpl; [done|]. simpl.
    intros [= <-].
    exists b, n, r, template, search, label_cls, label_loc, label_loc_weight,
      zf, xf, out, cls, loc, cls', cls_loss, loc_loss, total.
    rewrite Hz, Hx, (log_softmax_pure cls w). by split_and!.
  - destruct (attrs w !! "rpn_head") as [r|] eqn:Hr; simpl; [|done].
    destruct (py_call r [zf0; xf0]) as [|out] eqn:Hcr; simpl; [done|].
    destruct (unpack2 out) as [|[cls loc]] eqn:Hu; simpl; [done|]. simpl.
    rewrite (log_softmax_pure cls w).
    destruct (result (log_softmax cls blank)) as [|cls'] eqn:Hsm; simpl; [done|].
    destruct (select_cross_entropy_loss cls' label_cls) as [|cls_loss] eqn:Hcl;
      simpl; [done|]. simpl.
    destruct (weight_l1_loss loc label_loc label_loc_weight) as [|loc_loss] eqn:Hl1;
      simpl; [done|]. simpl.
    destruct (tensor_add _ _) as [|total] eqn:Hadd; simpl; [done|]. simpl.
    intros [= <-].
    exists b, VNone, r, template, search, label_cls, label_loc, label_loc_weight,
      zf0, xf0, out, cls, loc, cls', cls_loss, loc_loss, total.
    rewrite Hz, Hx, (log_softmax_pure cls w). by split_and!.
Qed.

(** C9: under the mask flag every call of [forward] raises.  Multiplying
    anything by [None] is a [TypeError], which is what the statement after
    [mask_loss = None] does: a call that got as far as caching the mask
    correlation feature raises exactly that. *)
Theorem forward_with_mask_always_raises (data : gmap string pyval) (w : world) :
  MASK_MASK cfg = true →
  (∃ e, result (forward cfg data w) = inl e) ∧
  py_mul (VNum (TRAIN_MASK_WEIGHT cfg)) VNone = inl TypeError ∧
  (attrs w !! "mask_corr_feature" = None →
   is_Some (attrs (final (forward cfg data w)) !! "mask_corr_feature") →
   result (forward cfg data w) = inl TypeError).
Proof.
  intros Hmask. split_and!.
  - by apply forward_masked_raises.
  - apply py_mul_None.
  - by apply forward_masked_type_error.
Qed.


End training.

(** * save_script *)

Section export.
Context `{TorchOps}.

(** If [save_script] returns, the model has the three optional
    submodules (the refine head unless the mask head tests false). *)
Lemma save_script_returns (save_path : string) (w : world) :
  result (save_script save_path w) = inr tt →
  ∃ neck mask_head,
    attrs w !! "neck" = Some neck ∧
    attrs w !! "mask_head" = Some mask_head ∧
    (py_truthy mask_head = true → is_Some (attrs w !! "refine_head")).
Proof.
  intros Hres.
  destruct (attrs w !! "neck") as [n|] eqn:Hn,
    (attrs w !! "mask_head") as [mh|] eqn:Hm; cycle 1.
  1-3: exfalso; revert Hres; unfold save_script, export, save, print;
    unfold_monad; repeat (case_match; simplify_eq/=; try congruence).
  exists n, mh. split_and!; try done. intros Ht.
  destruct (attrs w !! "refine_head") as [rh|] eqn:Hf; [by eauto|].
  exfalso; revert Hres; unfold save_script, export, save, print;
    unfold_monad; repeat (case_match; simplify_eq/=; try congruence).
Qed.

(** On a model without neck the call saves the backbone and raises. *)
Lemma save_script_without_neck (save_path : string) (w : world) (m : module) s :
  attrs w !! "backbone" = Some (VModule m) →
  jit_script m = inr s →
  script_save s (os_path_join save_path "back_bone.pt") = inr tt →
  attrs w !! "neck" = None →
  save_script save_path w =
    (inl (AttributeError "neck"),
     World _ (attrs w)
       (<[os_path_join save_path "back_bone.pt" := s]> (files w))
       (stdout w ++ ["Save backbone as " ++ os_path_join save_path "back_bone.pt"])).
Proof.
  intros Hb Hs Hsv Hn. unfold save_script, export, save, print. unfold_monad.
  unfold torch_jit_script.
  repeat (simpl; first [ rewrite Hb | rewrite Hs | rewrite Hsv | rewrite Hn ]).
  done.
Qed.

(** With all five submodules in place, none of them an empty container,
    each scriptable and each write going through, five graphs are
    written. *)
Lemma save_script_all (save_path : string) (w : world)
    (backbone neck rpn_head mask_head refine_head : module) s1 s2 s3 s4 s5 :
  attrs w !! "backbone" = Some (VModule backbone) →
  attrs w !! "neck" = Some (VModule neck) →
  attrs w !! "rpn_head" = Some (VModule rpn_head) →
  attrs w !! "mask_head" = Some (VModule mask_head) →
  attrs w !! "refine_head" = Some (VModule refine_head) →
  module_truthy neck = true → module_truthy rpn_head = true →
  module_truthy mask_head = true → module_truthy refine_head = true →
  jit_script backbone = inr s1 → jit_script neck = inr s2 →
  jit_script rpn_head = inr s3 → jit_script mask_head = inr s4 →
  jit_script refine_head = inr s5 →
  script_save s1 (os_path_join save_path "back_bone.pt") = inr tt →
  script_save s2 (os_path_join save_path "neck.pt") = inr tt →
  script_save s3 (os_path_join save_path "rpn_head.pt") = inr tt →
  script_save s4 (os_path_join save_path "mask_head.pt") = inr tt →
  script_save s5 (os_path_join save_path "refine_head.pt") = inr tt →
  result (save_script save_path w) = inr tt ∧
  attrs (final (save_script save_path w)) = attrs w ∧
  files (final (save_script save_path w)) =
    <[os_path_join save_path "refine_head.pt" := s5]>
      (<[os_path_join save_path "mask_head.pt" := s4]>
         (<[os_path_join save_path "rpn_head.pt" := s3]>
            (<[os_path_join save_path "neck.pt" := s2]>
               (<[os_path_join save_path "back_bone.pt" := s1]> (files w))))).
Proof.
  intros Hb Hn Hr Hm Hf T2 T3 T4 T5 H1 H2 H3 H4 H5 S1 S2 S3 S4 S5.
  unfold save_script, export, save, print. unfold_monad.
  unfold torch_jit_script.
  repeat (simpl; first
    [ rewrite Hb | rewrite Hn | rewrite Hr | rewrite Hm | rewrite Hf
    | rewrite T2 | rewrite T3 | rewrite T4 | rewrite T5
    | rewrite H1 | rewrite H2 | rewrite H3 | rewrite H4 | rewrite H5
    | rewrite S1 | rewrite S2 | rewrite S3 | rewrite S4 | rewrite S5 ]).
  done.
Qed.

(** On a constructed model whose mask head, if any, is no empty
    container, [save_script] returns only if all three flags are set. *)
Lemma save_script_needs_all_flags (cfg : config) (w0 : world) (ops : list op)
    (save_path : string) :
  attrs w0 = ∅ →
  result (__init__ cfg w0) = inr tt →
  (∀ m, get_mask_head (MASK_TYPE cfg) (MASK_KWARGS cfg) = inr m →
        module_truthy m = true) →
  result (save_script save_path (run cfg ops (final (__init__ cfg w0)))) = inr tt →
  ADJUST_ADJUST cfg = true ∧ MASK_MASK cfg = true ∧ REFINE_REFINE cfg = true.
Proof.
  intros Hw0 Hok Htruthy Hres.
  destruct (init_wires cfg w0 Hw0 Hok) as (_ & _ & Hn & Hm & Hf & _).
  destruct (init_built cfg w0 Hok) as (_ & _ & _ & Bm & _).
  apply save_script_returns in Hres as (n & mh & Hn' & Hm' & Hf').
  rewrite run_frame in Hn', Hm', Hf'
    by (rewrite !not_elem_of_cons; split_and?; (done || apply not_elem_of_nil)).
  rewrite Hn in Hn'. rewrite Hm in Hm'. rewrite Hf in Hf'.
  destruct (ADJUST_ADJUST cfg); [|done].
  destruct (MASK_MASK cfg); [|done].
  destruct (Bm eq_refl) as [v Hv]. rewrite Hv in Hm'. simplify_eq.
  destruct (get_mask_head _ _) as [|m] eqn:Hmh; simplify_eq/=.
  destruct (REFINE_REFINE cfg); [done|].
  by destruct (Hf' (Htruthy m eq_refl)).
Qed.

End export.

(** * The class on the small instance *)

Section demo.
Import Demo.
#[local] Existing Instance Demo.types.
#[local] Existing Instance Demo.ops.

(** Under all three flags the function under [track]'s decorator and
    [save_script] run through. *)
Example siammask_track_body_returns :
  result (track_body siammask (image 20) (templated siammask 7)) =
    inr (<["cls" := VTensor 330]> (<["loc" := VTensor (-130)]>
           (<["mask" := VTensor 23000]> ∅))).
Proof. vm_compute. reflexivity. Qed.

Example siammask_save_script_returns :
  result (save_script "out" (model siammask)) = inr tt ∧
  stdout (final (save_script "out" (model siammask))) =
    ["Save backbone as out/back_bone.pt"; "Save neckscript as out/neck.pt";
     "Save rpn_head_script as out/rpn_head.pt";
     "Save mask_head_script as out/mask_head.pt";
     "Save refine_head_script as out/refine_head.pt"].
Proof. split; vm_compute; reflexivity. Qed.

(** Without the mask flag training returns the three losses, the total
    being 1 * 212 + 2 * (-146). *)
Example siamrpn_pp_forward_returns :
  result (forward siamrpn_pp batch (model siamrpn_pp)) =
    inr (<["loc_loss" := VTensor (-146)]> (<["cls_loss" := VTensor 212]>
           (<["total_loss" := VTensor (-80)]> ∅))).
Proof. vm_compute. reflexivity. Qed.

(** C1: [track] after [template] raises [TypeError] instead of returning
    the dictionary, under all flags as without the mask flag: the call
    stops at the stub the decorator left and changes nothing. *)
Theorem decorated_track_raises :
  result (template siammask (image 7) (model siammask)) = inr tt ∧
  track siammask (image 20) (templated siammask 7) =
    (inl TypeError, templated siammask 7) ∧
  result (template siamrpn_pp (image 7) (model siamrpn_pp)) = inr tt ∧
  track siamrpn_pp (image 20) (templated siamrpn_pp 7) =
    (inl TypeError, templated siamrpn_pp 7).
Proof. split_and!; vm_compute; reflexivity. Qed.

(** C2: [template] stores the embedding 100 of image 7 and returns
    [None], but no [track] call consumes it: with the embedding cached
    [track] raises [TypeError] as it does without, and the rpn head is
    never run. *)
Theorem template_embedding_not_consumed :
  template siammask (image 7) (model siammask) =
    (inr tt, with_zf (image 100) (model siammask)) ∧
  track siammask (image 20) (with_zf (image 100) (model siammask)) =
    (inl TypeError, with_zf (image 100) (model siammask)) ∧
  result (track siammask (image 20) (model siammask)) = inl TypeError.
Proof. split_and!; vm_compute; reflexivity. Qed.

(** C4: under the mask flag [forward] raises [TypeError] after caching the
    mask correlation feature, instead of returning the losses. *)
Theorem siammask_forward_raises :
  MASK_MASK siammask_base = true ∧
  result (forward siammask_base batch (model siammask_base)) = inl TypeError ∧
  attrs (final (forward siammask_base batch (model siammask_base)))
    !! "mask_corr_feature" = Some (VTensor 2001).
Proof. split_and!; vm_compute; reflexivity. Qed.

(** C5: on a model without mask head [save_script] saves backbone, neck
    and rpn head and then raises at the test of [self.mask_head]; on one
    without neck it raises right after saving the backbone. *)
Theorem siamrpn_save_script_raises :
  result (save_script "out" (model siamrpn_pp)) = inl (AttributeError "mask_head") ∧
  dom (files (final (save_script "out" (model siamrpn_pp)))) =
    {[ "out/back_bone.pt"; "out/neck.pt"; "out/rpn_head.pt" ]} ∧
  result (save_script "out" (model siamrpn)) = inl (AttributeError "neck") ∧
  dom (files (final (save_script "out" (model siamrpn)))) = {[ "out/back_bone.pt" ]}.
Proof. split_and!; vm_compute; reflexivity. Qed.

(** C6: a [track] call with no [template] before it is rejected at the
    call: it raises [TypeError] on a model with no embedding cached
    without running the backbone or caching search features, where the
    function under the decorator would have cached them and raised at the
    read of [self.zf]; and after [template] it is rejected just the
    same. *)
Theorem track_rejected_up_front :
  attrs (model siammask) !! "zf" = None ∧
  track siammask (image 20) (model siammask) = (inl TypeError, model siammask) ∧
  attrs (final (track siammask (image 20) (model siammask))) !! "xf" = None ∧
  track_body siammask (image 20) (model siammask) =
    (inl (AttributeError "zf"),
     with_attr "xf" (VList [image 21; image 22]) (model siammask)) ∧
  attrs (templated siammask 7) !! "zf" = Some (image 100) ∧
  result (track siammask (image 20) (templated siammask 7)) = inl TypeError.
Proof. split_and!; vm_compute; reflexivity. Qed.

(** [submodules_fixed_at_init] on the configuration with mask head but
    no refine head. *)
Lemma submodules_fixed_at_init_witness :
  attrs blank = ∅ ∧
  result (__init__ siammask_base blank) = inr tt ∧
  submodule (model siammask_base) "mask_head" ∧
  attrs (model siammask_base) !! "refine_head" = None ∧
  ∀ ops, attrs (run siammask_base ops (model siammask_base)) !! "refine_head" = None.
Proof.
  assert (result (__init__ siammask_base blank) = inr tt) as Hok
    by (vm_compute; reflexivity).
  destruct (@submodules_fixed_at_init types ops siammask_base blank eq_refl Hok)
    as (_ & _ & _ & Hm & Hf & Hrun).
  split_and!; [reflexivity | exact Hok | exact Hm | exact Hf |].
  intros ops. rewrite Hrun; [exact Hf|].
  unfold submodules. rewrite !elem_of_cons. tauto.
Defined.

(** [forward_with_mask_always_raises] on the mask configuration. *)
Lemma forward_with_mask_always_raises_witness :
  MASK_MASK siammask_base = true ∧
  result (forward siammask_base batch (model siammask_base)) = inl TypeError.
Proof.
  split; [reflexivity|].
  destruct (@forward_with_mask_always_raises types ops siammask_base batch
              (model siammask_base) eq_refl) as (_ & _ & Hreached).
  apply Hreached.
  - vm_compute; reflexivity.
  - exists (image 2001). vm_compute; reflexivity.
Defined.

(** C7, as stated, fails.  After [template] on image 7 and a [track]
    call on frame 20 the embedding 100 is cached and [mask_refine] raises
    for the missing [self.xf]: it computes nothing from the embedding.
    When the caller assigns search features and a mask correlation
    feature, it hands those to the refine head, not the embedding, and
    caching another embedding changes nothing in its outcome. *)
Lemma mask_refine_ignores_template :
  let w := run siammask [Template (image 7); Track (image 20)] (model siammask) in
  attrs w !! "zf" = Some (image 100) ∧
  result (mask_refine (image 9) w) = inl (AttributeError "xf") ∧
  let w' := assigned siammask 7 in
  attrs w' !! "zf" = Some (image 100) ∧
  result (mask_refine (image 9) w') =
    py_call (VModule RefineHead)
      [VList [image 21; image 22]; image 23001; image 9] ∧
  result (mask_refine (image 9) w') ≠
    py_call (VModule RefineHead) [image 100; image 23001; image 9] ∧
  attrs (final (template siammask (image 50) w')) !! "zf" = Some (image 530) ∧
  result (mask_refine (image 9) (final (template siammask (image 50) w'))) =
    result (mask_refine (image 9) w').
Proof.
  intros w. split_and!; try (vm_compute; reflexivity).
  intros w'. split_and!; try (vm_compute; reflexivity).
  vm_compute. intros Heq. discriminate Heq.
Qed.



(** [mask_refine_reads_search_features] on a model whose caller has
    assigned the search features 21 and 22 and the mask correlation
    feature 23001. *)
Lemma mask_refine_reads_search_features_witness :
  mask_refine (image 9) (assigned siammask 7) =
    (inr (VTuple [VList [image 21; image 22]; image 23001; image 9]),
     assigned siammask 7).
Proof.
  destruct (@mask_refine_reads_search_features types ops (image 9)
              (assigned siammask 7)) as [Hrun _].
  rewrite Hrun. vm_compute. reflexivity.
Defined.

End demo.

(** * Further properties of the methods *)

Section track_more.
Context `{TorchOps} (cfg : config).

(** X1: the function written under [track]'s decorator (the stub's
    [original_method]) returns exactly when both flags are set, the four
    submodules and the cached embedding are there, and every call, slice
    and unpacking succeeds.  The dictionary then has the three keys [cls],
    [loc] and [mask] and no other, with the rpn head's two outputs and the
    mask head's first, and the run leaves the search features without the
    last one in [self.xf] and the mask head's second output in
    [self.mask_corr_feature]. *)
Theorem track_body_returns_exactly (x : pyval) (w : world) :
  (∀ d w', tracks cfg x w d w' → track_body cfg x w = (inr d, w')) ∧
  (∀ d, result (track_body cfg x w) = inr d →
     tracks cfg x w d (final (track_body cfg x w)) ∧
     dom d = {[ "cls"; "loc"; "mask" ]}).
Proof.
  split; [intros d w'; apply track_body_returns|].
  intros d Hd. apply track_body_inv in Hd. split; [done|].
  destruct Hd. rewrite !dom_insert_L, dom_empty_L. set_solver.
Qed.

(** X2: a run of the function under [track]'s decorator that raises has
    written no attribute but [self.xf]: the mask correlation feature is
    cached by returning runs only. *)
Theorem track_body_failure_writes_xf_only (x : pyval) (w : world) (e : exn)
    (k : string) :
  result (track_body cfg x w) = inl e →
  k ≠ "xf" →
  attrs (final (track_body cfg x w)) !! k = attrs w !! k.
Proof.
  intros He Hk. destruct (decide (k = "mask_corr_feature")) as [->|Hne].
  - revert He. unfold track_body. unfold_monad.
    repeat (case_match; simplify_eq/=; try done); intros; by simplify_map_eq.
  - apply track_body_writes. rewrite !not_elem_of_cons.
    split_and?; (done || apply not_elem_of_nil).
Qed.

(** No call on the model writes [self.xf]. *)
Lemma run_keeps_xf (ops : list op) (w : world) :
  attrs (run cfg ops w) !! "xf" = attrs w !! "xf".
Proof.
  revert w. induction ops as [|o ops IH]; intros w; [done|].
  unfold run in *; simpl. rewrite IH.
  destruct o; simpl;
    [ apply template_writes | reflexivity | apply mask_refine_writes
    | apply log_softmax_writes | apply forward_writes | apply save_script_writes ];
    rewrite ?not_elem_of_cons; split_and?; (done || apply not_elem_of_nil).
Qed.

(** X3: [mask_refine] returns in no session.  On a constructed model,
    after any calls of the six methods, [track] among them, it raises
    [AttributeError]: for [refine_head] unless the mask and refine flags are
    both set, and for [xf] otherwise, since [track] raises before its body
    could cache the search features and no other method writes [self.xf]. *)
Theorem mask_refine_never_returns (w0 : world) (ops : list op) (pos : pyval) :
  attrs w0 = ∅ →
  result (__init__ cfg w0) = inr tt →
  result (mask_refine pos (run cfg ops (final (__init__ cfg w0)))) =
    inl (AttributeError
           (if MASK_MASK cfg && REFINE_REFINE cfg then "xf" else "refine_head")).
Proof.
  intros Hw0 Hok.
  destruct (init_wires cfg w0 Hw0 Hok) as (_ & _ & _ & _ & Hf & Hrest).
  destruct (init_built cfg w0 Hok) as (_ & _ & _ & _ & Bf).
  unfold mask_refine. unfold_monad.
  rewrite run_frame
    by (rewrite !not_elem_of_cons; split_and?; (done || apply not_elem_of_nil)).
  rewrite Hf.
  destruct (MASK_MASK cfg), (REFINE_REFINE cfg); simpl; try done.
  destruct (Bf eq_refl eq_refl) as [v ->]. simpl.
  rewrite run_keeps_xf.
  by rewrite Hrest by (unfold submodules; rewrite !not_elem_of_cons;
    split_and?; (done || apply not_elem_of_nil)).
Qed.

End track_more.

Section template_more.
Context `{TorchOps} (cfg : config).

(** X4: the last [template] call wins.  After [template(z1)], a call
    [template(z2)] that returns leaves the model as if only it had been
    made, and one that raises leaves what the first call left. *)
Theorem template_overrides (z1 z2 : pyval) (w : world) (backbone neck : pyval) :
  attrs w !! "backbone" = Some backbone →
  (ADJUST_ADJUST cfg = true → attrs w !! "neck" = Some neck) →
  final (template cfg z2 (final (template cfg z1 w))) =
    match embedding cfg backbone neck z2 with
    | inr _ => final (template cfg z2 w)
    | inl _ => final (template cfg z1 w)
    end.
Proof.
  intros Hb Hn.
  rewrite (template_run cfg z1 w backbone neck Hb Hn).
  rewrite (template_run cfg z2 w backbone neck Hb Hn).
  destruct (embedding cfg backbone neck z1) as [e1|zf1] eqn:H1; simpl.
  - rewrite (template_run cfg z2 w backbone neck Hb Hn).
    by destruct (embedding cfg backbone neck z2).
  - rewrite (template_run cfg z2 (with_zf zf1 w) backbone neck).
    + destruct (embedding cfg backbone neck z2); simpl; [done|].
      unfold with_zf; simpl. by rewrite insert_insert_eq.
    + unfold with_zf; simpl. by rewrite lookup_insert_ne.
    + intros Hadj. unfold with_zf; simpl. rewrite lookup_insert_ne by done. auto.
Qed.

(** X12: on a model with its backbone (and, under the adjust flag, its
    neck) in place, [template(z)] stores in [self.zf] the backbone's
    output for [z], reduced to its last element under the mask flag and
    passed through the neck under the adjust flag, and returns [None]; if
    a step raises, the call raises the same and stores nothing. *)
Theorem template_stores_embedding (z : pyval) (w : world) (backbone neck : pyval) :
  attrs w !! "backbone" = Some backbone →
  (ADJUST_ADJUST cfg = true → attrs w !! "neck" = Some neck) →
  template cfg z w =
    match embedding cfg backbone neck z with
    | inr zf => (inr tt, with_zf zf w)
    | inl e => (inl e, w)
    end.
Proof. apply template_run. Qed.

(** X13: in a session on a constructed model the embedding in [self.zf]
    is the one stored by the last [template] call that returned, and there
    is none before the first: no other method writes it. *)
Theorem session_caches_latest_template (w0 : world) (backbone neck : pyval)
    (ops : list op) :
  attrs w0 = ∅ →
  result (__init__ cfg w0) = inr tt →
  attrs (final (__init__ cfg w0)) !! "backbone" = Some backbone →
  (ADJUST_ADJUST cfg = true →
   attrs (final (__init__ cfg w0)) !! "neck" = Some neck) →
  attrs (run cfg ops (final (__init__ cfg w0))) !! "zf" =
    cached cfg backbone neck None ops.
Proof.
  intros Hw0 Hok Hb Hn.
  destruct (init_wires cfg w0 Hw0 Hok) as (_ & _ & _ & _ & _ & Hrest).
  rewrite (run_cached cfg backbone neck ops _ Hb Hn).
  by rewrite Hrest by (unfold submodules; rewrite !not_elem_of_cons;
    split_and?; (done || apply not_elem_of_nil)).
Qed.

(** Calls other than [track] leave [self.xf]. *)
Lemma run_without_track (ops : list op) (w : world) :
  forallb (λ o, negb (is_track o)) ops = true →
  attrs (run cfg ops w) !! "xf" = attrs w !! "xf".
Proof.
  revert w. induction ops as [|o ops IH]; intros w Hq; [done|].
  simpl in Hq. apply andb_prop in Hq as [Ho Hq].
  unfold run in *; simpl. rewrite IH by done.
  destruct o; try done; simpl;
    [ apply template_writes | apply mask_refine_writes | apply log_softmax_writes
    | apply forward_writes | apply save_script_writes ];
    rewrite ?not_elem_of_cons; split_and?; (done || apply not_elem_of_nil).
Qed.

(** X5: [mask_refine] needs a [track] call before it.  On a constructed
    model, after any calls none of which is [track], it raises
    [AttributeError]: for [refine_head] unless the mask and refine flags are
    both set, and for [xf] otherwise; training steps do not help, since
    [forward] caches its search features under another name. *)
Theorem mask_refine_needs_track (w0 : world) (ops : list op) (pos : pyval) :
  attrs w0 = ∅ →
  result (__init__ cfg w0) = inr tt →
  forallb (λ o, negb (is_track o)) ops = true →
  result (mask_refine pos (run cfg ops (final (__init__ cfg w0)))) =
    inl (AttributeError
           (if MASK_MASK cfg && REFINE_REFINE cfg then "xf" else "refine_head")).
Proof.
  intros Hw0 Hok Hq.
  destruct (init_wires cfg w0 Hw0 Hok) as (_ & _ & _ & _ & Hf & Hrest).
  destruct (init_built cfg w0 Hok) as (_ & _ & _ & _ & Bf).
  unfold mask_refine. unfold_monad.
  rewrite run_frame
    by (rewrite !not_elem_of_cons; split_and?; (done || apply not_elem_of_nil)).
  rewrite Hf.
  destruct (MASK_MASK cfg), (REFINE_REFINE cfg); simpl; try done.
  destruct (Bf eq_refl eq_refl) as [v ->]. simpl.
  rewrite run_without_track by done.
  by rewrite Hrest by (unfold submodules; rewrite !not_elem_of_cons;
    split_and?; (done || apply not_elem_of_nil)).
Qed.

(** X6: the constructor returns exactly when the backbone and rpn head
    factories return and so does each optional factory its flag selects; a
    factory whose flag is unset is not called, so its failure does not
    matter.  When the backbone factory raises, the constructor raises the
    same and sets nothing. *)
Theorem init_returns_iff (w0 : world) :
  (result (__init__ cfg w0) = inr tt ↔
   (∃ m, get_backbone (BACKBONE_TYPE cfg) (BACKBONE_KWARGS cfg) = inr m) ∧
   (∃ m, get_rpn_head (RPN_TYPE cfg) (RPN_KWARGS cfg) = inr m) ∧
   (ADJUST_ADJUST cfg = true →
    ∃ m, get_neck (ADJUST_TYPE cfg) (ADJUST_KWARGS cfg) = inr m) ∧
   (MASK_MASK cfg = true →
    ∃ m, get_mask_head (MASK_TYPE cfg) (MASK_KWARGS cfg) = inr m) ∧
   (MASK_MASK cfg = true → REFINE_REFINE cfg = true →
    ∃ m, get_refine_head (REFINE_TYPE cfg) = inr m)) ∧
  (∀ e, get_backbone (BACKBONE_TYPE cfg) (BACKBONE_KWARGS cfg) = inl e →
        __init__ cfg w0 = (inl e, w0)).
Proof.
  split; [split|].
  - unfold __init__. unfold_monad.
    repeat case_match; simpl; intros; simplify_eq/=; split_and?; by eauto.
  - intros ([mb Hb] & [mr Hr] & Hn & Hm & Hf).
    unfold __init__. unfold_monad. rewrite Hb. simpl.
    destruct (ADJUST_ADJUST cfg); simpl.
    + destruct (Hn eq_refl) as [mn ->]. simpl. rewrite Hr. simpl.
      destruct (MASK_MASK cfg); simpl; [|done].
      destruct (Hm eq_refl) as [mm ->]. simpl.
      destruct (REFINE_REFINE cfg); simpl; [|done].
      by destruct (Hf eq_refl eq_refl) as [mf ->].
    + rewrite Hr. simpl.
      destruct (MASK_MASK cfg); simpl; [|done].
      destruct (Hm eq_refl) as [mm ->]. simpl.
      destruct (REFINE_REFINE cfg); simpl; [|done].
      by destruct (Hf eq_refl eq_refl) as [mf ->].
  - intros e He. unfold __init__. unfold_monad. by rewrite He.
Qed.

End template_more.

Section forward_more.
Context `{TorchOps} (cfg : config).

(** [forward] raises what the first failing read of its batch raises,
    before it has called a network or written anything. *)
Lemma forward_fetch_fails (data : gmap string pyval) (w : world)
    (i : nat) (key : string) (e : exn) :
  batch_keys !! i = Some key →
  (∀ k, k ∈ take i batch_keys → ∃ v, fetch data k = inr v) →
  fetch data key = inl e →
  forward cfg data w = (inl e, w).
Proof.
  intros Hi Hbefore He.
  assert (∀ j k, batch_keys !! j = Some k → (j < i)%nat →
            ∃ v, fetch data k = inr v) as Hok.
  { intros j k Hj Hlt. apply Hbefore. apply list_elem_of_lookup. exists j.
    by rewrite lookup_take_lt. }
  unfold forward. unfold_monad.
  destruct i as [|[|[|[|[|i]]]]]; simpl in Hi; simplify_eq.
  - by rewrite He.
  - destruct (Hok 0%nat "template" eq_refl) as [? ->]; [lia|].
    by rewrite He.
  - destruct (Hok 0%nat "template" eq_refl) as [? ->]; [lia|].
    destruct (Hok 1%nat "search" eq_refl) as [? ->]; [lia|].
    by rewrite He.
  - destruct (Hok 0%nat "template" eq_refl) as [? ->]; [lia|].
    destruct (Hok 1%nat "search" eq_refl) as [? ->]; [lia|].
    destruct (Hok 2%nat "label_cls" eq_refl) as [? ->]; [lia|].
    by rewrite He.
  - destruct (Hok 0%nat "template" eq_refl) as [? ->]; [lia|].
    destruct (Hok 1%nat "search" eq_refl) as [? ->]; [lia|].
    destruct (Hok 2%nat "label_cls" eq_refl) as [? ->]; [lia|].
    destruct (Hok 3%nat "label_loc" eq_refl) as [? ->]; [lia|].
    by rewrite He.
Qed.

(** X7: a batch that lacks one of the five keys, or holds under it
    something without a [cuda] method, makes [forward] raise at the first
    such key (in the order template, search, label_cls, label_loc,
    label_loc_weight): [KeyError] for a missing key, [AttributeError] for
    the [cuda] method of a value that is neither a tensor nor a module.
    No network has been called by then and the model is as before. *)
Theorem forward_bad_batch (data : gmap string pyval) (w : world)
    (i : nat) (key : string) :
  batch_keys !! i = Some key →
  (∀ k, k ∈ take i batch_keys → ∃ v, fetch data k = inr v) →
  (data !! key = None → forward cfg data w = (inl (KeyError key), w)) ∧
  (∀ v, data !! key = Some v → (∀ t, v ≠ VTensor t) → (∀ m, v ≠ VModule m) →
        forward cfg data w = (inl (AttributeError "cuda"), w)).
Proof.
  intros Hi Hbefore. split.
  - intros Hnone. apply (forward_fetch_fails data w i key); [done..|].
    unfold fetch, py_getitem. by rewrite Hnone.
  - intros v Hv Hnt Hnm. apply (forward_fetch_fails data w i key); [done..|].
    unfold fetch, py_getitem. rewrite Hv.
    destruct v; simpl; try done; [by destruct (Hnt t) | by destruct (Hnm m)].
Qed.

(** X8: without the mask flag a returning [forward] has computed the
    embeddings of the template and the search image as [template] would,
    passed them to the rpn head, taken the cross-entropy loss of the
    log-softmaxed classification output and the weighted L1 loss of the
    localization output, and returns a dictionary with the keys
    [total_loss], [cls_loss] and [loc_loss] and no other, where the total
    is the class weight times the first loss plus the localization weight
    times the second; it has written no attribute. *)
Theorem forward_without_mask_losses (data : gmap string pyval) (w : world) outputs :
  MASK_MASK cfg = false →
  result (forward cfg data w) = inr outputs →
  attrs (final (forward cfg data w)) = attrs w ∧
  dom outputs = {[ "total_loss"; "cls_loss"; "loc_loss" ]} ∧
  ∃ backbone neck rpn_head template search label_cls label_loc label_loc_weight
    zf xf out cls loc cls' cls_loss loc_loss total_loss,
    attrs w !! "backbone" = Some backbone ∧
    (ADJUST_ADJUST cfg = true → attrs w !! "neck" = Some neck) ∧
    attrs w !! "rpn_head" = Some rpn_head ∧
    fetch data "template" = inr template ∧
    fetch data "search" = inr search ∧
    fetch data "label_cls" = inr label_cls ∧
    fetch data "label_loc" = inr label_loc ∧
    fetch data "label_loc_weight" = inr label_loc_weight ∧
    embedding cfg backbone neck template = inr zf ∧
    embedding cfg backbone neck search = inr xf ∧
    py_call rpn_head [zf; xf] = inr out ∧
    unpack2 out = inr (cls, loc) ∧
    result (log_softmax cls w) = inr cls' ∧
    select_cross_entropy_loss cls' label_cls = inr cls_loss ∧
    weight_l1_loss loc label_loc label_loc_weight = inr loc_loss ∧
    tensor_add (tensor_scale (TRAIN_CLS_WEIGHT cfg) cls_loss)
               (tensor_scale (TRAIN_LOC_WEIGHT cfg) loc_loss) = inr total_loss ∧
    outputs !! "total_loss" = Some (VTensor total_loss) ∧
    outputs !! "cls_loss" = Some (VTensor cls_loss) ∧
    outputs !! "loc_loss" = Some (VTensor loc_loss).
Proof.
  intros Hmask Hres. split_and!.
  - apply map_eq. intros k.
    apply forward_unmasked_writes; [done | apply not_elem_of_nil].
  - destruct (forward_unmasked_returns cfg data w outputs Hmask Hres)
      as (?&?&?&?&?&?&?&?&?&?&?&?&?&?&?&?&?&H'). destruct_and!. subst outputs.
    rewrite !dom_insert_L, dom_empty_L. set_solver.
  - destruct (forward_unmasked_returns cfg data w outputs Hmask Hres)
      as (b&n&r&t&s&lc&ll&lw&zf&xf&out&cls&loc&cls'&cl&l1&tot&H').
    destruct_and!. subst outputs.
    exists b, n, r, t, s, lc, ll, lw, zf, xf, out, cls, loc, cls', cl, l1, tot.
    split_and!; try done; by simplify_map_eq.
Qed.

End forward_more.

Section export_more.
Context `{TorchOps}.

(** X9: on a model that has all five submodules, none of them an empty
    container (so each tests true), each of which can be scripted, when
    each of the five writes goes through, [save_script] returns [None],
    writes the five graphs under [save_path] as back_bone.pt, neck.pt,
    rpn_head.pt, mask_head.pt and refine_head.pt, prints one line for each
    in that order, and changes no attribute. *)
Theorem save_script_exports_all (save_path : string) (w : world)
    (backbone neck rpn_head mask_head refine_head : module) s1 s2 s3 s4 s5 :
  attrs w !! "backbone" = Some (VModule backbone) →
  attrs w !! "neck" = Some (VModule neck) →
  attrs w !! "rpn_head" = Some (VModule rpn_head) →
  attrs w !! "mask_head" = Some (VModule mask_head) →
  attrs w !! "refine_head" = Some (VModule refine_head) →
  module_truthy neck = true → module_truthy rpn_head = true →
  module_truthy mask_head = true → module_truthy refine_head = true →
  jit_script backbone = inr s1 → jit_script neck = inr s2 →
  jit_script rpn_head = inr s3 → jit_script mask_head = inr s4 →
  jit_script refine_head = inr s5 →
  script_save s1 (os_path_join save_path "back_bone.pt") = inr tt →
  script_save s2 (os_path_join save_path "neck.pt") = inr tt →
  script_save s3 (os_path_join save_path "rpn_head.pt") = inr tt →
  script_save s4 (os_path_join save_path "mask_head.pt") = inr tt →
  script_save s5 (os_path_join save_path "refine_head.pt") = inr tt →
  save_script save_path w =
    (inr tt,
     World _ (attrs w)
       (<[os_path_join save_path "refine_head.pt" := s5]>
          (<[os_path_join save_path "mask_head.pt" := s4]>
             (<[os_path_join save_path "rpn_head.pt" := s3]>
                (<[os_path_join save_path "neck.pt" := s2]>
                   (<[os_path_join save_path "back_bone.pt" := s1]> (files w))))))
       (stdout w ++
          ["Save backbone as " ++ os_path_join save_path "back_bone.pt";
           "Save neckscript as " ++ os_path_join save_path "neck.pt";
           "Save rpn_head_script as " ++ os_path_join save_path "rpn_head.pt";
           "Save mask_head_script as " ++ os_path_join save_path "mask_head.pt";
           "Save refine_head_script as " ++ os_path_join save_path "refine_head.pt"])).
Proof.
  intros Hb Hn Hr Hm Hf T2 T3 T4 T5 H1 H2 H3 H4 H5 S1 S2 S3 S4 S5.
  unfold save_script, export, save, print. unfold_monad.
  unfold torch_jit_script.
  repeat (simpl; first
    [ rewrite Hb | rewrite Hn | rewrite Hr | rewrite Hm | rewrite Hf
    | rewrite T2 | rewrite T3 | rewrite T4 | rewrite T5
    | rewrite H1 | rewrite H2 | rewrite H3 | rewrite H4 | rewrite H5
    | rewrite S1 | rewrite S2 | rewrite S3 | rewrite S4 | rewrite S5 ]).
  simpl. by rewrite <- !app_assoc.
Qed.

(** X10: whether it returns or raises, [save_script] changes no attribute
    of the model, writes no file other than the five under [save_path],
    and only adds to what was printed. *)
Theorem save_script_touches_exports_only (save_path : string) (w : world) :
  attrs (final (save_script save_path w)) = attrs w ∧
  (∀ path, path ∉ export_paths save_path →
     files (final (save_script save_path w)) !! path = files w !! path) ∧
  stdout w `prefix_of` stdout (final (save_script save_path w)).
Proof.
  split_and!.
  - apply map_eq. intros k. apply save_script_writes, not_elem_of_nil.
  - intros path Hpath. unfold export_paths in Hpath. simpl in Hpath.
    rewrite !not_elem_of_cons in Hpath. destruct_and!.
    unfold save_script, export, save, print. unfold_monad.
    repeat (case_match; simplify_eq/=; try done);
      rewrite ?lookup_insert_ne by done; done.
  - unfold save_script, export, save, print. unfold_monad.
    repeat (case_match; simplify_eq/=; try done);
      rewrite <- ?app_assoc; by apply prefix_app_r.
Qed.

(** X11: [log_softmax] raises [AttributeError] on a value that is no
    tensor and [ValueError] on a tensor that does not have exactly four
    dimensions.  On a tensor of size (b, a2, h, w) it asks [view] for the
    shape (b, 2, a2 // 2, h, w), permutes that to put the pair last and
    takes the log-softmax over it; the shape asked for has as many elements
    as the tensor exactly when a2 is even or the tensor is empty.  It
    changes nothing. *)
Theorem log_softmax_shape (cls : pyval) (w : world) :
  final (log_softmax cls w) = w ∧
  ((∀ t, cls ≠ VTensor t) →
   result (log_softmax cls w) = inl (AttributeError "size")) ∧
  (∀ t, cls = VTensor t → length (tensor_size t) ≠ 4%nat →
        result (log_softmax cls w) = inl ValueError) ∧
  (∀ t b a2 h w', cls = VTensor t → tensor_size t = [b; a2; h; w'] →
     result (log_softmax cls w) =
       match tensor_view t [b; 2; a2 `div` 2; h; w'] with
       | inr t1 =>
           match tensor_permute t1 [0; 2; 3; 4; 1] with
           | inr t2 => boxed (F_log_softmax (tensor_contiguous t2) 4)
           | inl e => inl e
           end
       | inl e => inl e
       end ∧
     (numel [b; 2; a2 `div` 2; h; w'] = numel [b; a2; h; w'] ↔
      a2 `mod` 2 = 0 ∨ b * h * w' = 0)).
Proof.
  split_and!.
  - by rewrite log_softmax_pure.
  - intros Hnt. destruct cls; try done. by destruct (Hnt t).
  - intros t -> Hlen. unfold log_softmax. unfold_monad. simpl.
    destruct (tensor_size t) as [|?[|?[|?[|?[|??]]]]]; simpl in *; done.
  - intros t b a2 h w' -> Hsize. split.
    + unfold log_softmax. unfold_monad. simpl. rewrite Hsize. simpl.
      destruct (tensor_view _ _); simpl; [done|].
      destruct (tensor_permute _ _); simpl; [done|].
      by destruct (F_log_softmax _ _).
    + unfold numel; simpl.
      pose proof (Z.div_mod a2 2 ltac:(lia)) as Hdm.
      pose proof (Z.mod_pos_bound a2 2 ltac:(lia)) as Hb.
      split.
      * intros Heq.
        destruct (decide (a2 `mod` 2 = 0)) as [|Hodd]; [by left|right].
        assert (a2 `mod` 2 = 1) as H1 by lia.
        assert (b * h * w' * (a2 - 2 * (a2 `div` 2)) = 0) as Hz by nia.
        replace (a2 - 2 * (a2 `div` 2)) with 1 in Hz by lia. lia.
      * intros [Hev|Hz].
        -- assert (a2 = 2 * (a2 `div` 2)) as Ha by lia.
           rewrite Ha at 2. ring.
        -- assert (b * (2 * (a2 `div` 2 * (h * (w' * 1)))) =
                   b * h * w' * (2 * (a2 `div` 2))) as -> by ring.
           assert (b * (a2 * (h * (w' * 1))) = b * h * w' * a2) as -> by ring.
           by rewrite Hz.
Qed.

End export_more.

(** * The further properties on the small instance *)

Section demo_more.
Import Demo.
#[local] Existing Instance Demo.types.
#[local] Existing Instance Demo.ops.

(** [track_body_failure_writes_xf_only] on a mask model without
    template: the run caches the search features and raises at the read of
    [self.zf]. *)
Lemma track_body_failure_writes_xf_only_witness :
  result (track_body siammask (image 20) (model siammask)) =
    inl (AttributeError "zf") ∧
  attrs (final (track_body siammask (image 20) (model siammask))) !! "xf" =
    Some (VList [image 21; image 22]) ∧
  attrs (final (track_body siammask (image 20) (model siammask)))
    !! "mask_corr_feature" = None.
Proof.
  assert (result (track_body siammask (image 20) (model siammask)) =
            inl (AttributeError "zf")) as He by (vm_compute; reflexivity).
  split_and!; [exact He | vm_compute; reflexivity |].
  rewrite (@track_body_failure_writes_xf_only types ops siammask (image 20)
             (model siammask) (AttributeError "zf") "mask_corr_feature" He);
    [vm_compute; reflexivity | discriminate].
Defined.

(** [mask_refine_never_returns] after a template, a track call and a
    training step. *)
Lemma mask_refine_never_returns_witness :
  result (mask_refine (image 9)
            (run siammask [Template (image 7); Track (image 20); Forward batch]
               (model siammask))) =
    inl (AttributeError "xf").
Proof.
  assert (result (__init__ siammask blank) = inr tt) as Hok
    by (vm_compute; reflexivity).
  unfold model.
  rewrite (@mask_refine_never_returns types ops siammask blank
             [Template (image 7); Track (image 20); Forward batch] (image 9)
             eq_refl Hok).
  reflexivity.
Defined.

(** [template_stores_embedding] on the mask configuration: image 7 gives
    the features 8, 9, 10, the last of which the neck turns into 100. *)
Lemma template_stores_embedding_witness :
  attrs (model siammask) !! "backbone" = Some (VModule Backbone) ∧
  attrs (model siammask) !! "neck" = Some (VModule Neck) ∧
  template siammask (image 7) (model siammask) =
    (inr tt, with_zf (VTensor 100) (model siammask)).
Proof.
  assert (attrs (model siammask) !! "backbone" = Some (VModule Backbone)) as Hb
    by (vm_compute; reflexivity).
  assert (attrs (model siammask) !! "neck" = Some (VModule Neck)) as Hn
    by (vm_compute; reflexivity).
  split_and!; [exact Hb | exact Hn |].
  rewrite (@template_stores_embedding types ops siammask (image 7)
             (model siammask) (@VModule types Backbone) (@VModule types Neck)
             Hb (λ _, Hn)).
  reflexivity.
Defined.

(** [session_caches_latest_template] on a session with two templates, a
    track call and a training step between them: the second template's
    embedding is the one cached. *)
Lemma session_caches_latest_template_witness :
  attrs (run siammask
           [Template (image 7); Track (image 20); Forward batch;
            Template (image 8)]
           (model siammask)) !! "zf" = Some (VTensor 110).
Proof.
  assert (result (__init__ siammask blank) = inr tt) as Hok
    by (vm_compute; reflexivity).
  assert (attrs (final (__init__ siammask blank)) !! "backbone" =
            Some (VModule Backbone)) as Hb by (vm_compute; reflexivity).
  assert (attrs (final (__init__ siammask blank)) !! "neck" =
            Some (VModule Neck)) as Hn by (vm_compute; reflexivity).
  unfold model.
  rewrite (@session_caches_latest_template types ops siammask blank
             (@VModule types Backbone) (@VModule types Neck)
             [Template (image 7); Track (image 20); Forward batch;
              Template (image 8)] eq_refl Hok Hb (λ _, Hn)).
  vm_compute. reflexivity.
Defined.

(** [template_overrides] with the images 7 and 8. *)
Lemma template_overrides_witness :
  final (template siammask (image 8)
           (final (template siammask (image 7) (model siammask)))) =
    with_zf (image 110) (model siammask).
Proof.
  assert (attrs (model siammask) !! "backbone" = Some (VModule Backbone)) as Hb
    by (vm_compute; reflexivity).
  assert (attrs (model siammask) !! "neck" = Some (VModule Neck)) as Hn
    by (vm_compute; reflexivity).
  rewrite (@template_overrides types ops siammask (image 7) (image 8)
             (model siammask) (@VModule types Backbone) (@VModule types Neck)
             Hb (λ _, Hn)).
  vm_compute. reflexivity.
Defined.

(** [mask_refine_needs_track] after a template and a training step. *)
Lemma mask_refine_needs_track_witness :
  result (mask_refine (image 9)
            (run siammask [Template (image 7); Forward batch] (model siammask))) =
    inl (AttributeError "xf").
Proof.
  assert (result (__init__ siammask blank) = inr tt) as Hok
    by (vm_compute; reflexivity).
  unfold model.
  rewrite (@mask_refine_needs_track types ops siammask blank
             [Template (image 7); Forward batch] (image 9) eq_refl Hok eq_refl).
  reflexivity.
Defined.

(** [forward_bad_batch] on a batch without [label_cls]. *)
Lemma forward_bad_batch_witness :
  forward siamrpn_pp (delete "label_cls" batch) (model siamrpn_pp) =
    (inl (KeyError "label_cls"), model siamrpn_pp).
Proof.
  apply (@forward_bad_batch types ops siamrpn_pp (delete "label_cls" batch)
           (model siamrpn_pp) 2 "label_cls" eq_refl).
  - intros k Hk. simpl in Hk. rewrite !elem_of_cons in Hk.
    destruct Hk as [->|[->|Hk]].
    + exists (image 1). vm_compute. reflexivity.
    + exists (image 2). vm_compute. reflexivity.
    + by apply elem_of_nil in Hk.
  - vm_compute. reflexivity.
Defined.

(** [forward_without_mask_losses] on the configuration without mask
    head. *)
Lemma forward_without_mask_losses_witness :
  attrs (final (forward siamrpn_pp batch (model siamrpn_pp))) =
    attrs (model siamrpn_pp) ∧
  dom (<["loc_loss" := image (-146)]> (<["cls_loss" := image 212]>
         (<["total_loss" := image (-80)]> (∅ : gmap string pyval)))) =
    {[ "total_loss"; "cls_loss"; "loc_loss" ]}.
Proof.
  assert (result (forward siamrpn_pp batch (model siamrpn_pp)) =
            inr (<["loc_loss" := image (-146)]> (<["cls_loss" := image 212]>
                   (<["total_loss" := image (-80)]> ∅)))) as Hres
    by (vm_compute; reflexivity).
  destruct (@forward_without_mask_losses types ops siamrpn_pp batch
              (model siamrpn_pp) _ eq_refl Hres) as (Hattrs & Hdom & _).
  split; [exact Hattrs | exact Hdom].
Defined.

(** [save_script_exports_all] on the model with all five submodules. *)
Lemma save_script_exports_all_witness :
  result (save_script "out" (model siammask)) = inr tt ∧
  files (final (save_script "out" (model siammask))) !! "out/neck.pt" = Some Neck.
Proof.
  rewrite (@save_script_exports_all types ops "out" (model siammask)
             Backbone Neck RpnHead MaskHead RefineHead
             Backbone Neck RpnHead MaskHead RefineHead);
    try reflexivity; try (vm_compute; reflexivity).
  split; vm_compute; reflexivity.
Defined.

End demo_more.
